(** * Data-visualisation report generator: plot planning and PDF pagination

    A shallow embedding of [Python-Data-Visualization.py].  The script
    inspects the dtypes of a data frame, renders one chart per column (and
    per pair of numerical columns) into image files, lays the images out on
    the pages of a PDF canvas and finally removes the image files.

    The chart renderer (matplotlib / seaborn), the CSV reader (pandas) and
    the file system are the script's environment: the renderer and the
    reader are Section variables, the file system and the console are the
    [World] the script runs in. *)

From stdpp Require Import base gmap sets list strings sorting.
From Stdlib Require Import ZArith Lia.

(** ** Data frames *)

(** What [select_dtypes] distinguishes: [include=np.number],
    [include='object'], and every other dtype (bool, datetime, ...). *)
Inductive dtype := Number | Object | Other.

#[global] Instance dtype_eq_dec : EqDecision dtype.
Proof. solve_decision. Defined.

(** A data frame: its columns in order, each with its dtype, and its rows. *)
Record DataFrame := {
  dtypes : list (string * dtype);
  values : list (list string)
}.

(** [df.columns] *)
Definition columns (df : DataFrame) : list string := (dtypes df).*1.

(** [df.select_dtypes(include=t).columns.tolist()] *)
Definition select_dtypes (t : dtype) (df : DataFrame) : list string :=
  (filter (λ c, c.2 = t) (dtypes df)).*1.

(** [column in df.columns] *)
Definition has_column (column : string) (df : DataFrame) : bool :=
  bool_decide (column ∈ columns df).

(** ** Charts, canvas operations, events *)

(** One call of a [plot_*] function: the chart, its column(s), the file it
    is saved to. *)
Inductive Plot :=
| Histogram (column save_path : string)
| Scatter (x_col y_col save_path : string)
| Pairplot (save_path : string)
| CorrelationHeatmap (save_path : string)
| PieChart (column save_path : string).

Definition save_path_of (p : Plot) : string :=
  match p with
  | Histogram _ s | Scatter _ _ s | Pairplot s | CorrelationHeatmap s
  | PieChart _ s => s
  end.

(** The calls the script makes on its reportlab canvas. *)
Inductive CanvasOp :=
| SetFont (psfontname : string) (size : Z)
| DrawString (x y : Z) (text : string)
| DrawImage (image : string) (x y width height : Z)
| ShowPage.

#[global] Instance CanvasOp_eq_dec : EqDecision CanvasOp.
Proof. solve_decision. Defined.

(** What the script does to the outside, in the order it does it. *)
Inductive Event :=
| Prompted (prompt : string)              (* input(prompt) *)
| Printed (line : string)                 (* print(line) *)
| PrintedColumns (cols : list string)     (* print(df.columns) *)
| Rendered (p : Plot)                     (* a chart saved to its path *)
| SavedPdf (filename : string) (ops : list CanvasOp)   (* c.save() *)
| Removed (path : string).                (* os.remove(path) *)

Inductive Exn :=
| DataSourceError (file_path : string)    (* pd.read_csv raised *)
| EOFError                                (* input() at end of input *)
| RenderError (p : Plot)                  (* a plot_* function raised *)
| ArtifactReadError (path : string)       (* drawImage cannot open path *)
| FileNotFoundError (path : string).      (* os.remove of a missing path *)

(** ** The world and the monad of the script *)

Record World := {
  files : gset string;      (* the files on disk *)
  stdin : list string;      (* the lines still to be typed *)
  trace : list Event        (* the events so far, oldest first *)
}.

Inductive Result (A : Type) :=
| Return (a : A) (w : World)
| Raise (e : Exn) (w : World).
Arguments Return {A} a w.
Arguments Raise {A} e w.

Definition M (A : Type) : Type := World → Result A.

Definition ret {A} (a : A) : M A := λ w, Return a w.

Definition bind {A B} (m : M A) (k : A → M B) : M B :=
  λ w, match m w with
       | Return a w' => k a w'
       | Raise e w' => Raise e w'
       end.

Definition raise {A} (e : Exn) : M A := λ w, Raise e w.

Notation "x <- m ;; k" := (bind m (λ x, k))
  (at level 100, m at next level, right associativity, only parsing).
Notation "m ;;; k" := (bind m (λ _, k))
  (at level 100, right associativity, only parsing).

Definition emit (e : Event) : M unit :=
  λ w, Return () {| files := files w; stdin := stdin w; trace := trace w ++ [e] |}.

Definition write_file (path : string) : M unit :=
  λ w, Return () {| files := {[path]} ∪ files w; stdin := stdin w; trace := trace w |}.

Definition delete_file (path : string) : M unit :=
  λ w, Return () {| files := files w ∖ {[path]}; stdin := stdin w; trace := trace w |}.

Definition file_exists (path : string) : M bool :=
  λ w, Return (bool_decide (path ∈ files w)) w.

(** [print(line)] *)
Definition print (line : string) : M unit := emit (Printed line).

(** [input(prompt)]: shows the prompt, reads one line. *)
Definition input (prompt : string) : M string :=
  emit (Prompted prompt) ;;;
  λ w, match stdin w with
       | [] => Raise EOFError w
       | line :: rest =>
           Return line {| files := files w; stdin := rest; trace := trace w |}
       end.

(** [os.remove(path)] *)
Definition os_remove (path : string) : M unit :=
  present <- file_exists path ;;
  if present then delete_file path ;;; emit (Removed path)
  else raise (FileNotFoundError path).

(** [for x in xs: s = body(x, s)], with the loop's variables as [s]. *)
Fixpoint for_each {A S} (xs : list A) (body : A → S → M S) (s : S) : M S :=
  match xs with
  | [] => ret s
  | x :: xs' => s' <- body x s ;; for_each xs' body s'
  end.

(** [range(lo, hi)] *)
Definition range (lo hi : nat) : list nat := seq lo (hi - lo).

Section Script.

(** The chart renderer: whether the [plot_*] call produces its image on this
    data frame (it raises otherwise, before [savefig]). *)
Variable renderer : DataFrame → Plot → bool.

(** [pd.read_csv]: the data frame of a readable, parsable file. *)
Variable read_csv : string → option DataFrame.

Definition load_data (file_path : string) : M DataFrame :=
  match read_csv file_path with
  | Some df => ret df
  | None => raise (DataSourceError file_path)
  end.

Definition render (df : DataFrame) (p : Plot) : M unit :=
  if renderer df p
  then write_file (save_path_of p) ;;; emit (Rendered p)
  else raise (RenderError p).

Definition plot_histogram (df : DataFrame) (column save_path : string) : M unit :=
  render df (Histogram column save_path).

Definition plot_scatter (df : DataFrame) (x_col y_col save_path : string) : M unit :=
  render df (Scatter x_col y_col save_path).

Definition plot_pairplot (df : DataFrame) (save_path : string) : M unit :=
  render df (Pairplot save_path).

Definition plot_correlation_heatmap (df : DataFrame) (save_path : string) : M unit :=
  render df (CorrelationHeatmap save_path).

Definition plot_pie_chart (df : DataFrame) (column save_path : string) : M unit :=
  render df (PieChart column save_path).

(** [numerical_cols[i]]; every index the script uses is in range. *)
Definition item (cols : list string) (i : nat) : string := cols !!! i.

Definition auto_generate_plots (df : DataFrame) : M (list string) :=
  let numerical_cols := select_dtypes Number df in
  let categorical_cols := select_dtypes Object df in
  let plot_paths : list string := [] in
  plot_paths <-
    (if bool_decide (numerical_cols ≠ []) then
       for_each numerical_cols (λ col plot_paths,
         let plot_path := "histogram_" +:+ col +:+ ".png" in
         plot_histogram df col plot_path ;;;
         ret (plot_paths ++ [plot_path])) plot_paths
     else ret plot_paths) ;;
  plot_paths <-
    (if bool_decide (1 < length numerical_cols) then
       for_each (range 0 (length numerical_cols)) (λ i plot_paths,
         for_each (range (i + 1) (length numerical_cols)) (λ j plot_paths,
           let plot_path :=
             "scatter_" +:+ item numerical_cols i +:+ "vs"
               +:+ item numerical_cols j +:+ ".png" in
           plot_scatter df (item numerical_cols i) (item numerical_cols j)
             plot_path ;;;
           ret (plot_paths ++ [plot_path])) plot_paths) plot_paths
     else ret plot_paths) ;;
  plot_paths <-
    (if bool_decide (numerical_cols ≠ []) then
       let plot_path := "correlation_heatmap.png" in
       plot_correlation_heatmap df plot_path ;;;
       ret (plot_paths ++ [plot_path])
     else ret plot_paths) ;;
  plot_paths <-
    (if bool_decide (numerical_cols ≠ []) then
       let plot_path := "pairplot.png" in
       plot_pairplot df plot_path ;;;
       ret (plot_paths ++ [plot_path])
     else ret plot_paths) ;;
  plot_paths <-
    (if bool_decide (categorical_cols ≠ []) then
       for_each categorical_cols (λ col plot_paths,
         let plot_path := "pie_chart_" +:+ col +:+ ".png" in
         plot_pie_chart df col plot_path ;;;
         ret (plot_paths ++ [plot_path])) plot_paths
     else ret plot_paths) ;;
  ret plot_paths.

(** [reportlab.lib.pagesizes.letter], in points.  reportlab holds the two
    numbers as floats; they and every coordinate computed from them below
    are whole numbers of small size, on which float arithmetic is exact. *)
Definition letter : Z * Z := (612, 792)%Z.

(** [c.drawImage(image, x, y, width=.., height=..)] opens the image file. *)
Definition drawImage (c : list CanvasOp) (image : string) (x y width height : Z)
  : M (list CanvasOp) :=
  present <- file_exists image ;;
  if present then ret (c ++ [DrawImage image x y width height])
  else raise (ArtifactReadError image).

(** [c.save()] writes the pages drawn so far to the canvas's file. *)
Definition save (c : list CanvasOp) (filename : string) : M unit :=
  write_file filename ;;; emit (SavedPdf filename c).

(** The body of the loop of [generate_pdf_report]; the loop's variables are
    the canvas and [y_position]. *)
Definition place_plot (height : Z) (plot_path : string)
    (s : list CanvasOp * Z) : M (list CanvasOp * Z) :=
  let '(c, y_position) := s in
  c <- drawImage c plot_path 100 y_position 400 300 ;;
  let y_position := (y_position - 350)%Z in
  if bool_decide (y_position < 100)%Z then
    let c := c ++ [ShowPage] in
    let c := c ++ [SetFont "Helvetica-Bold" 18] in
    let c := c ++ [DrawString 100 (height - 100) "Data Visualization Report"] in
    let y_position := (height - 150)%Z in
    ret (c, y_position)
  else ret (c, y_position).

Definition generate_pdf_report (plot_paths : list string)
    (output_filename : string) : M unit :=
  let c : list CanvasOp := [] in
  let '(width, height) := letter in
  let c := c ++ [SetFont "Helvetica-Bold" 18] in
  let c := c ++ [DrawString 100 (height - 100) "Data Visualization Report"] in
  let y_position := (height - 150)%Z in
  s <- for_each plot_paths (place_plot height) (c, y_position) ;;
  save s.1 output_filename.

(** The menu branch [choice == '2']. *)
Definition specific_plots (df : DataFrame) : M unit :=
  print (String (Ascii.ascii_of_nat 10) "Choose specific plots to generate:") ;;;
  print "1. Histogram" ;;;
  print "2. Scatter Plot" ;;;
  print "3. Pairplot" ;;;
  print "4. Correlation Heatmap" ;;;
  print "5. Pie Chart" ;;;
  specific_choice <- input "Enter the number of your choice: " ;;
  if bool_decide (specific_choice = "1") then
    column <- input "Enter the column name for the histogram: " ;;
    if has_column column df then
      plot_histogram df column ("histogram_" +:+ column +:+ ".png")
    else print "Column not found."
  else if bool_decide (specific_choice = "2") then
    x_col <- input "Enter the column name for the x-axis: " ;;
    y_col <- input "Enter the column name for the y-axis: " ;;
    if has_column x_col df && has_column y_col df then
      plot_scatter df x_col y_col
        ("scatter_" +:+ x_col +:+ "vs" +:+ y_col +:+ ".png")
    else print "One or both columns not found."
  else if bool_decide (specific_choice = "3") then
    plot_pairplot df "pairplot.png"
  else if bool_decide (specific_choice = "4") then
    plot_correlation_heatmap df "correlation_heatmap.png"
  else if bool_decide (specific_choice = "5") then
    column <- input "Enter the column name for the pie chart: " ;;
    if has_column column df then
      plot_pie_chart df column ("pie_chart_" +:+ column +:+ ".png")
    else print "Column not found."
  else print "Invalid choice.".

(** The menu branch [choice == '3']. *)
Definition pdf_report (df : DataFrame) : M unit :=
  plot_paths <- auto_generate_plots df ;;
  generate_pdf_report plot_paths "data_visualization_report.pdf" ;;;
  print "PDF report generated: data_visualization_report.pdf" ;;;
  for_each plot_paths (λ plot_path _, os_remove plot_path) ().

Definition main : M unit :=
  file_path <- input "Enter the path to the dataset (CSV file): " ;;
  df <- load_data file_path ;;
  print "Columns available in the dataset:" ;;;
  emit (PrintedColumns (columns df)) ;;;
  print (String (Ascii.ascii_of_nat 10) "Choose an option:") ;;;
  print "1. Auto-generate all plots" ;;;
  print "2. Generate specific plots" ;;;
  print "3. Generate PDF report" ;;;
  print "4. Generate inferences" ;;;
  choice <- input "Enter the number of your choice: " ;;
  if bool_decide (choice = "1") then
    auto_generate_plots df ;;; ret ()
  else if bool_decide (choice = "2") then
    specific_plots df
  else if bool_decide (choice = "3") then
    pdf_report df
  else print "Invalid choice.".

End Script.

(** * The vocabulary of the statements

    What the properties below speak of: the plan of the charts, the worlds
    the script leaves behind, the pages of a canvas, sample inputs. *)

(** ** The plot plan

    The charts [auto_generate_plots] asks for, as a list: the policy of the
    planner written without the renderer.  The script renders exactly this
    list, in this order ([auto_generate_plots_run]). *)

Definition histogram_of (col : string) : Plot :=
  Histogram col ("histogram_" +:+ col +:+ ".png").

Definition scatter_name (x_col y_col : string) : string :=
  "scatter_" +:+ x_col +:+ "vs" +:+ y_col +:+ ".png".

Definition scatter_of (cols : list string) (ij : nat * nat) : Plot :=
  Scatter (item cols ij.1) (item cols ij.2)
    (scatter_name (item cols ij.1) (item cols ij.2)).

Definition pie_chart_of (col : string) : Plot :=
  PieChart col ("pie_chart_" +:+ col +:+ ".png").

(** The index pairs visited by [for i in range(k): for j in range(i+1, k)]. *)
Definition index_pairs (k : nat) : list (nat * nat) :=
  i ← range 0 k; pair i <$> range (i + 1) k.

Definition overview_plots (numerical_cols : list string) : list Plot :=
  if bool_decide (numerical_cols ≠ [])
  then [CorrelationHeatmap "correlation_heatmap.png"; Pairplot "pairplot.png"]
  else [].

Definition plot_plan (df : DataFrame) : list Plot :=
  let numerical_cols := select_dtypes Number df in
  let categorical_cols := select_dtypes Object df in
  (histogram_of <$> numerical_cols)
  ++ (scatter_of numerical_cols <$> index_pairs (length numerical_cols))
  ++ overview_plots numerical_cols
  ++ (pie_chart_of <$> categorical_cols).

(** The world after the charts [ps] have been rendered. *)
Definition after_renders (ps : list Plot) (w : World) : World :=
  {| files := list_to_set (save_path_of <$> ps) ∪ files w;
     stdin := stdin w;
     trace := trace w ++ (Rendered <$> ps) |}.

(** Rendering a list of charts in order, collecting their paths. *)
Definition run_plots (renderer : DataFrame → Plot → bool) (df : DataFrame)
    (ps : list Plot) (plot_paths : list string) : M (list string) :=
  for_each ps (λ p plot_paths,
    render renderer df p ;;; ret (plot_paths ++ [save_path_of p])) plot_paths.

(** ** Counting and ordering the index pairs *)

(** Binomial coefficients, by Pascal's rule. *)
Fixpoint choose (n k : nat) : nat :=
  match k, n with
  | 0, _ => 1
  | S _, 0 => 0
  | S k', S n' => choose n' k' + choose n' k
  end.

(** Pairs in dictionary order: the order in which the nested loops run. *)
Definition pair_lt (a b : nat * nat) : Prop :=
  a.1 < b.1 ∨ (a.1 = b.1 ∧ a.2 < b.2).

Definition is_scatter (p : Plot) : bool :=
  match p with Scatter _ _ _ => true | _ => false end.

Definition is_heatmap (p : Plot) : bool :=
  match p with CorrelationHeatmap _ => true | _ => false end.

Definition is_pairplot (p : Plot) : bool :=
  match p with Pairplot _ => true | _ => false end.

(** ** Sample data frames, renderers and worlds *)

(** A sample data frame: two numerical columns and a categorical one. *)
Definition sample_df : DataFrame :=
  {| dtypes := [("age", Number); ("income", Number); ("city", Object)];
     values := [["31"; "52000"; "Accra"]; ["45"; "61000"; "Kumasi"]] |}.

Definition empty_world : World := {| files := ∅; stdin := []; trace := [] |}.

(** A renderer that produces every chart. *)
Definition always_renders : DataFrame → Plot → bool := λ _ _, true.

(** [pat in s] on strings. *)
Fixpoint contains (pat s : string) : bool :=
  String.prefix pat s
  || match s with
     | EmptyString => false
     | String _ s' => contains pat s'
     end.

(** Four numerical columns, two of which have ["vs"] in their names. *)
Definition collision_df : DataFrame :=
  {| dtypes := [("a", Number); ("bvsc", Number); ("avsb", Number); ("c", Number)];
     values := [] |}.

(** The sample data frame with other rows. *)
Definition sample_df' : DataFrame :=
  {| dtypes := dtypes sample_df; values := [["18"; "0"; "Tamale"]] |}.

(** ** The canvas of the report and its pages *)

(** The title drawn at the top of a page. *)
Definition header : list CanvasOp :=
  [SetFont "Helvetica-Bold" 18; DrawString 100 692 "Data Visualization Report"].

(** The world after [c.save()] has written the canvas [ops] to [filename]. *)
Definition saved (filename : string) (ops : list CanvasOp) (w : World) : World :=
  {| files := {[filename]} ∪ files w;
     stdin := stdin w;
     trace := trace w ++ [SavedPdf filename ops] |}.

(** The cursor at which the plot of index [n] is drawn, by the rule of the
    layout: it starts at 792 - 150; each placement lowers it by 350; when it
    has fallen below 100 it is back at 792 - 150, on a new page. *)
Fixpoint cursor_y (n : nat) : Z :=
  match n with
  | 0 => 792 - 150
  | S n' =>
      let y := (cursor_y n' - 350)%Z in
      if bool_decide (y < 100)%Z then (792 - 150)%Z else y
  end.

(** What placing the plot of index [n] adds to the canvas. *)
Definition placement (n : nat) (plot_path : string) : list CanvasOp :=
  DrawImage plot_path 100 (cursor_y n) 400 300
  :: (if bool_decide (cursor_y n - 350 < 100)%Z then ShowPage :: header else []).

(** A world with two image files on disk. *)
Definition two_plots_world : World :=
  {| files := {["a.png"; "b.png"]}; stdin := []; trace := [] |}.

Definition is_image (op : CanvasOp) : bool :=
  match op with DrawImage _ _ _ _ _ => true | _ => false end.

(** The pages of a canvas: [showPage] closes the current page. The page
    after the last [showPage] is written by [save] when something was drawn
    on it, which is always so here, as every page starts with the header. *)
Fixpoint pages (ops : list CanvasOp) : list (list CanvasOp) :=
  match ops with
  | [] => [[]]
  | ShowPage :: ops' => [] :: pages ops'
  | op :: ops' =>
      match pages ops' with
      | page :: rest => (op :: page) :: rest
      | [] => [[op]]
      end
  end.

(** The canvas of the report on [plot_paths], all of them readable. *)
Definition report_ops (plot_paths : list string) : list CanvasOp :=
  match generate_pdf_report plot_paths "data_visualization_report.pdf"
          {| files := list_to_set plot_paths; stdin := []; trace := [] |} with
  | Return _ w' =>
      match trace w' with
      | [SavedPdf _ ops] => ops
      | _ => []
      end
  | Raise _ _ => []
  end.

(** [P] plots fit on a page: no page of any report holds more than [P]
    images, and some page of some report holds [P]. *)
Definition per_page_capacity (P : nat) : Prop :=
  (∀ plot_paths page,
     page ∈ pages (report_ops plot_paths) → length (filter is_image page) ≤ P)
  ∧ (∃ plot_paths page,
       page ∈ pages (report_ops plot_paths) ∧ length (filter is_image page) = P).

(** The pages of the report, two plots to a page. *)
Fixpoint page_list (plot_paths : list string) : list (list CanvasOp) :=
  match plot_paths with
  | [] => [header]
  | [p] => [header ++ [DrawImage p 100 642 400 300]]
  | p :: q :: rest =>
      (header ++ [DrawImage p 100 642 400 300; DrawImage q 100 292 400 300])
      :: page_list rest
  end.

(** ** The worlds of the menu *)

(** The world after the files [paths] have been removed. *)
Definition after_removes (paths : list string) (w : World) : World :=
  {| files := files w ∖ list_to_set paths;
     stdin := stdin w;
     trace := trace w ++ (Removed <$> paths) |}.

Definition printed (line : string) (w : World) : World :=
  {| files := files w; stdin := stdin w; trace := trace w ++ [Printed line] |}.

(** What [main] shows before it branches on the choice. *)
Definition menu_events (df : DataFrame) : list Event :=
  [Prompted "Enter the path to the dataset (CSV file): ";
   Printed "Columns available in the dataset:";
   PrintedColumns (columns df);
   Printed (String (Ascii.ascii_of_nat 10) "Choose an option:");
   Printed "1. Auto-generate all plots";
   Printed "2. Generate specific plots";
   Printed "3. Generate PDF report";
   Printed "4. Generate inferences";
   Prompted "Enter the number of your choice: "].

(** The world after the events [es] were shown and the typed lines before
    [rest] were read. *)
Definition asked (es : list Event) (rest : list string) (w : World) : World :=
  {| files := files w; stdin := rest; trace := trace w ++ es |}.

(** Two numerical columns: a plan of five charts. *)
Definition two_numeric_df : DataFrame :=
  {| dtypes := [("age", Number); ("income", Number)];
     values := [["31"; "52000"]; ["45"; "61000"]] |}.

(** A renderer that raises on scatter charts and produces the others. *)
Definition no_scatter : DataFrame → Plot → bool := λ _ p, negb (is_scatter p).

(** A renderer that raises on pie charts and produces the others. *)
Definition no_pie_chart : DataFrame → Plot → bool :=
  λ _ p, match p with PieChart _ _ => false | _ => true end.

(** The user asks for the PDF report of data.csv. *)
Definition report_session : World :=
  {| files := ∅; stdin := ["data.csv"; "3"]; trace := [] |}.

(** ** Requests for one chart *)

(** What the branch of the specific plots shows before it branches. *)
Definition specific_menu : list Event :=
  [Printed (String (Ascii.ascii_of_nat 10) "Choose specific plots to generate:");
   Printed "1. Histogram";
   Printed "2. Scatter Plot";
   Printed "3. Pairplot";
   Printed "4. Correlation Heatmap";
   Printed "5. Pie Chart";
   Prompted "Enter the number of your choice: "].

(** The requests that name columns. *)
Inductive Request :=
| HistogramOf (column : string)
| ScatterOf (x_col y_col : string)
| PieChartOf (column : string).

(** The lines the user types for a request: the number, then the names. *)
Definition request_lines (r : Request) : list string :=
  match r with
  | HistogramOf column => ["1"; column]
  | ScatterOf x_col y_col => ["2"; x_col; y_col]
  | PieChartOf column => ["5"; column]
  end.

Definition request_columns (r : Request) : list string :=
  match r with
  | HistogramOf column | PieChartOf column => [column]
  | ScatterOf x_col y_col => [x_col; y_col]
  end.

Definition request_prompts (r : Request) : list Event :=
  match r with
  | HistogramOf _ => [Prompted "Enter the column name for the histogram: "]
  | ScatterOf _ _ => [Prompted "Enter the column name for the x-axis: ";
                      Prompted "Enter the column name for the y-axis: "]
  | PieChartOf _ => [Prompted "Enter the column name for the pie chart: "]
  end.

Definition request_plot (r : Request) : Plot :=
  match r with
  | HistogramOf column => Histogram column ("histogram_" +:+ column +:+ ".png")
  | ScatterOf x_col y_col =>
      Scatter x_col y_col ("scatter_" +:+ x_col +:+ "vs" +:+ y_col +:+ ".png")
  | PieChartOf column => PieChart column ("pie_chart_" +:+ column +:+ ".png")
  end.

(** Every column the request names is a column of the data frame. *)
Definition request_valid (r : Request) (df : DataFrame) : bool :=
  forallb (λ column, has_column column df) (request_columns r).

(** The user asks for a histogram of a column the sample data lacks. *)
Definition histogram_session : World :=
  {| files := ∅; stdin := ["data.csv"; "2"; "1"; "height"]; trace := [] |}.

(** ** Outcomes, named columns, drawn images *)

(** The world a run ends in, whether it returns or raises. *)
Definition result_world {A} (r : Result A) : World :=
  match r with Return _ w | Raise _ w => w end.

(** The columns a chart names. *)
Definition plot_columns (p : Plot) : list string :=
  match p with
  | Histogram column _ | PieChart column _ => [column]
  | Scatter x_col y_col _ => [x_col; y_col]
  | Pairplot _ | CorrelationHeatmap _ => []
  end.

(** The image file a canvas operation draws. *)
Definition image_of (op : CanvasOp) : option string :=
  match op with DrawImage image _ _ _ _ => Some image | _ => None end.

(** The user asks for the PDF report; there are files of the user's own on
    disk, one of them under the name of an artifact. *)
Definition cluttered_session : World :=
  {| files := {["notes.txt"; "pairplot.png"]};
     stdin := ["data.csv"; "3"];
     trace := [] |}.

(** A data frame with three numerical columns, a categorical column and a
    column of another dtype between them. *)
Definition survey_df : DataFrame :=
  {| dtypes := [("age", Number); ("joined", Other); ("income", Number);
                ("city", Object); ("score", Number)];
     values := [["31"; "2019-04-01"; "52000"; "Accra"; "7"]] |}.

(** * Properties *)

(** ** The script renders its plan *)

Section Rendering.

Variable renderer : DataFrame → Plot → bool.
Variable df : DataFrame.

Lemma bind_ext {A B} (m m' : M A) (k k' : A → M B) w :
  m w = m' w → (∀ a w', k a w' = k' a w') → bind m k w = bind m' k' w.
Proof. intros Hm Hk. unfold bind. rewrite Hm. by destruct (m' w). Qed.

Lemma bind_assoc {A B C} (m : M A) (k : A → M B) (h : B → M C) w :
  bind (bind m k) h w = bind m (λ x, bind (k x) h) w.
Proof. unfold bind. by destruct (m w). Qed.

Lemma bind_ret_r {A} (m : M A) w : bind m ret w = m w.
Proof. unfold bind, ret. by destruct (m w). Qed.

Lemma for_each_fmap {A B S} (f : A → B) (body : B → S → M S) xs s w :
  for_each xs (λ x, body (f x)) s w = for_each (f <$> xs) body s w.
Proof.
  revert s w. induction xs as [|x xs IH]; intros s w; [done|].
  cbn. unfold bind. destruct (body (f x) s w); [apply IH | done].
Qed.

Lemma for_each_app {A S} (body : A → S → M S) xs ys s w :
  for_each (xs ++ ys) body s w
  = bind (for_each xs body s) (for_each ys body) w.
Proof.
  revert s w. induction xs as [|x xs IH]; intros s w; [done|].
  cbn. unfold bind. destruct (body x s w); [by rewrite IH | done].
Qed.

Lemma for_each_nested {A B S} (inner : A → list B) (body : B → S → M S) xs s w :
  for_each xs (λ x, for_each (inner x) body) s w
  = for_each (xs ≫= inner) body s w.
Proof.
  revert s w. induction xs as [|x xs IH]; intros s w; [done|].
  cbn. rewrite for_each_app. unfold bind.
  destruct (for_each (inner x) body s w); [apply IH | done].
Qed.

Lemma run_plots_app ps qs plot_paths w :
  run_plots renderer df (ps ++ qs) plot_paths w
  = bind (run_plots renderer df ps plot_paths) (run_plots renderer df qs) w.
Proof. apply for_each_app. Qed.

Lemma index_pairs_plots (cols : list string) :
  scatter_of cols <$> index_pairs (length cols)
  = range 0 (length cols) ≫= λ i, (λ j, scatter_of cols (i, j)) <$> range (i + 1) (length cols).
Proof.
  unfold index_pairs. generalize (range 0 (length cols)) as idx.
  induction idx as [|i idx IH]; [done|].
  cbn. rewrite fmap_app, IH. f_equal. by rewrite <- list_fmap_compose.
Qed.

(** The script renders its plan: running [auto_generate_plots] is rendering
    the charts of [plot_plan] one after the other. *)
Lemma auto_generate_plots_run w :
  auto_generate_plots renderer df w = run_plots renderer df (plot_plan df) [] w.
Proof.
  unfold auto_generate_plots, plot_plan.
  set (num := select_dtypes Number df). set (cat := select_dtypes Object df).
  assert (Hh : ∀ paths w,
    (if bool_decide (num ≠ []) then
       for_each num (λ col plot_paths,
         plot_histogram renderer df col ("histogram_" +:+ col +:+ ".png") ;;;
         ret (plot_paths ++ ["histogram_" +:+ col +:+ ".png"])) paths
     else ret paths) w = run_plots renderer df (histogram_of <$> num) paths w).
  { intros paths w'. unfold run_plots. rewrite <- for_each_fmap.
    destruct (bool_decide_reflect (num ≠ [])) as [Hn|Hn]; [done|].
    apply dec_stable in Hn. by rewrite Hn. }
  assert (Hs : ∀ paths w,
    (if bool_decide (1 < length num) then
       for_each (range 0 (length num)) (λ i plot_paths,
         for_each (range (i + 1) (length num)) (λ j plot_paths,
           plot_scatter renderer df (item num i) (item num j)
             ("scatter_" +:+ item num i +:+ "vs" +:+ item num j +:+ ".png") ;;;
           ret (plot_paths ++
             ["scatter_" +:+ item num i +:+ "vs" +:+ item num j +:+ ".png"]))
           plot_paths) paths
     else ret paths) w
    = run_plots renderer df (scatter_of num <$> index_pairs (length num)) paths w).
  { intros paths w'. unfold run_plots. rewrite index_pairs_plots.
    rewrite <- for_each_nested.
    destruct (bool_decide_reflect (1 < length num)) as [Hn|Hn].
    - generalize (range 0 (length num)) as idx. intros idx. revert paths w'.
      induction idx as [|i idx IH]; intros paths w'; [done|].
      cbn. unfold bind. rewrite <- for_each_fmap.
      match goal with |- match ?a with _ => _ end = match ?b with _ => _ end =>
        change b with a; destruct a; [apply IH | done] end.
    - destruct num as [|c [|c' num']]; [done | done | cbn in Hn; lia]. }
  assert (Hp : ∀ paths w,
    (if bool_decide (cat ≠ []) then
       for_each cat (λ col plot_paths,
         plot_pie_chart renderer df col ("pie_chart_" +:+ col +:+ ".png") ;;;
         ret (plot_paths ++ ["pie_chart_" +:+ col +:+ ".png"])) paths
     else ret paths) w = run_plots renderer df (pie_chart_of <$> cat) paths w).
  { intros paths w'. unfold run_plots. rewrite <- for_each_fmap.
    destruct (bool_decide_reflect (cat ≠ [])) as [Hn|Hn]; [done|].
    apply dec_stable in Hn. by rewrite Hn. }
  assert (Ho : ∀ paths w,
    bind (if bool_decide (num ≠ []) then
            plot_correlation_heatmap renderer df "correlation_heatmap.png" ;;;
            ret (paths ++ ["correlation_heatmap.png"])
          else ret paths)
      (λ plot_paths,
         if bool_decide (num ≠ []) then
           plot_pairplot renderer df "pairplot.png" ;;;
           ret (plot_paths ++ ["pairplot.png"])
         else ret plot_paths) w
    = run_plots renderer df (overview_plots num) paths w).
  { intros paths w'. unfold overview_plots, run_plots.
    destruct (bool_decide_reflect (num ≠ [])) as [Hn|Hn]; [|done].
    cbn. unfold bind, plot_correlation_heatmap, plot_pairplot.
    destruct (render renderer df (CorrelationHeatmap "correlation_heatmap.png") w')
      as [[] w1|]; [|done].
    unfold ret. by destruct (render renderer df (Pairplot "pairplot.png") w1). }
  rewrite run_plots_app. apply bind_ext; [apply Hh|]. intros p1 w1.
  rewrite run_plots_app. apply bind_ext; [apply Hs|]. intros p2 w2.
  rewrite run_plots_app.
  etrans; [symmetry; apply bind_assoc|].
  apply bind_ext; [apply Ho|]. intros p4 w4.
  rewrite bind_ret_r. apply Hp.
Qed.

Lemma after_renders_cons p ps w :
  after_renders (p :: ps) w
  = after_renders ps {| files := {[save_path_of p]} ∪ files w;
                        stdin := stdin w;
                        trace := trace w ++ [Rendered p] |}.
Proof.
  unfold after_renders; cbn. f_equal; [|by rewrite <- (assoc_L (++))].
  by rewrite (assoc_L (∪)), (comm_L (∪) (list_to_set _) {[_]}).
Qed.

Lemma after_renders_app ps qs w :
  after_renders (ps ++ qs) w = after_renders qs (after_renders ps w).
Proof.
  unfold after_renders; cbn. rewrite !fmap_app, list_to_set_app_L.
  f_equal; [|by rewrite (assoc_L (++))].
  by rewrite (assoc_L (∪)), (comm_L (∪) (list_to_set (save_path_of <$> qs))).
Qed.

(** Every chart of the list renders: the loop returns all the paths. *)
Lemma run_plots_ok ps plot_paths w :
  (∀ p, p ∈ ps → renderer df p = true) →
  run_plots renderer df ps plot_paths w
  = Return (plot_paths ++ (save_path_of <$> ps)) (after_renders ps w).
Proof.
  revert plot_paths w. induction ps as [|p ps IH]; intros paths w Hok.
  - cbn. unfold ret, after_renders; cbn. rewrite !(right_id_L [] (++)).
    destruct w; cbn. do 2 f_equal. by rewrite (left_id_L ∅ (∪)).
  - unfold run_plots in *. cbn. unfold bind, render.
    rewrite (Hok p) by left. cbn.
    rewrite IH by (intros; apply Hok; by right).
    rewrite after_renders_cons. by rewrite <- (assoc_L (++)).
Qed.

(** The first chart that does not render ends the loop with its error; the
    charts before it are on disk, the charts after it are never asked for. *)
Lemma run_plots_fail pre p post plot_paths w :
  (∀ q, q ∈ pre → renderer df q = true) →
  renderer df p = false →
  run_plots renderer df (pre ++ p :: post) plot_paths w
  = Raise (RenderError p) (after_renders pre w).
Proof.
  intros Hok Hp. rewrite run_plots_app. unfold bind.
  rewrite run_plots_ok by done.
  unfold run_plots; cbn. unfold bind, render. by rewrite Hp.
Qed.

End Rendering.

(** ** The index pairs of the scatter loops *)

Lemma choose_1 n : choose n 1 = n.
Proof.
  induction n as [|n IH]; [done|].
  change (choose (S n) 1) with (choose n 0 + choose n 1).
  rewrite IH. by destruct n.
Qed.

Lemma choose_2_closed n : 2 * choose n 2 = n * (n - 1).
Proof.
  induction n as [|n IH]; [done|].
  change (choose (S n) 2) with (choose n 1 + choose n 2).
  rewrite choose_1. destruct n; [done|]. cbn [Nat.sub] in *. nia.
Qed.

Lemma elem_of_range lo hi j : j ∈ range lo hi ↔ lo ≤ j < hi.
Proof. unfold range. rewrite elem_of_seq. lia. Qed.

Lemma elem_of_index_pairs k i j : (i, j) ∈ index_pairs k ↔ i < j < k.
Proof.
  unfold index_pairs. rewrite list_elem_of_bind. split.
  - intros (i' & Hj & Hi). apply list_elem_of_fmap in Hj as (j' & [= -> ->] & Hj).
    apply elem_of_range in Hj. lia.
  - intros Hij. exists i. split.
    + apply list_elem_of_fmap. exists j. split; [done|]. apply elem_of_range. lia.
    + apply elem_of_range. lia.
Qed.

Lemma NoDup_index_pairs k : NoDup (index_pairs k).
Proof.
  unfold index_pairs, range. apply NoDup_bind.
  - intros i1 i2 [i j] _ _ H1 H2.
    apply list_elem_of_fmap in H1 as (? & [= -> ->] & _).
    by apply list_elem_of_fmap in H2 as (? & [= -> ->] & _).
  - intros i _. apply NoDup_fmap_2; [|apply NoDup_seq]. by intros ?? [= ->].
  - apply NoDup_seq.
Qed.

Lemma index_pairs_sorted k : StronglySorted pair_lt (index_pairs k).
Proof.
  unfold index_pairs, range. rewrite Nat.sub_0_r.
  enough (H : ∀ n lo, StronglySorted pair_lt
    (seq lo n ≫= λ i, pair i <$> seq (i + 1) (k - (i + 1)))) by apply H.
  induction n as [|n IH]; intros lo; [constructor|].
  cbn [seq]. rewrite bind_cons. apply StronglySorted_app_2.
  - intros [i j] [i' j'] Hij Hij'.
    apply list_elem_of_fmap in Hij as (? & [= -> ->] & _).
    apply list_elem_of_bind in Hij' as (i2 & Hj' & Hi2).
    apply list_elem_of_fmap in Hj' as (? & [= -> ->] & _).
    apply elem_of_seq in Hi2. left; cbn. lia.
  - apply (StronglySorted_fmap _ lt).
    + intros x y Hxy. right; cbn. done.
    + generalize (lo + 1) as a, (k - (lo + 1)) as m. intros a m. revert a.
      induction m as [|m IHm]; intros a; cbn; constructor; [apply IHm|].
      apply Forall_forall. intros x Hx%elem_of_seq. lia.
  - apply IH.
Qed.

Lemma length_index_pairs k : length (index_pairs k) = choose k 2.
Proof.
  unfold index_pairs, range. rewrite Nat.sub_0_r.
  assert (H : ∀ n lo, lo + n = k →
    length (seq lo n ≫= λ i, pair i <$> seq (i + 1) (k - (i + 1))) = choose n 2).
  { induction n as [|n IH]; intros lo Hk; [done|].
    cbn [seq]. rewrite bind_cons, length_app, length_fmap, length_seq.
    rewrite IH by lia.
    change (choose (S n) 2) with (choose n 1 + choose n 2).
    rewrite choose_1. lia. }
  by apply (H k 0).
Qed.

(** ** The auto-generated plan *)

(** When every chart renders, the script returns the paths of its plan and
    leaves one [Rendered] event per chart, in plan order. *)
Lemma auto_generate_plots_ok renderer df w :
  (∀ p, p ∈ plot_plan df → renderer df p = true) →
  auto_generate_plots renderer df w
  = Return (save_path_of <$> plot_plan df) (after_renders (plot_plan df) w).
Proof. intros Hok. rewrite auto_generate_plots_run. by apply run_plots_ok. Qed.

Lemma length_overview_plots cols :
  length (overview_plots cols) = if bool_decide (1 ≤ length cols) then 2 else 0.
Proof. unfold overview_plots. by destruct cols. Qed.

(** C2: with [k] numerical and [m] categorical columns, the plan has
    [k + C(k,2) + (2 if k >= 1 else 0) + m] entries; columns of any other
    dtype are not counted and add nothing.  With [k = m = 0] the script
    returns the empty list without raising and without touching the world. *)
Theorem plan_length renderer (df : DataFrame) (w : World) (k m : nat) :
  (∀ p, renderer df p = true) →
  length (filter (λ c, c.2 = Number) (dtypes df)) = k →
  length (filter (λ c, c.2 = Object) (dtypes df)) = m →
  ∃ plot_paths w',
    auto_generate_plots renderer df w = Return plot_paths w'
    ∧ length plot_paths
      = k + choose k 2 + (if bool_decide (1 ≤ k) then 2 else 0) + m
    ∧ (k = 0 → m = 0 → plot_paths = [] ∧ w' = w).
Proof.
  intros Hok Hk Hm. eexists _, _. split; [by apply auto_generate_plots_ok|].
  assert (Hk' : length (select_dtypes Number df) = k)
    by (unfold select_dtypes; by rewrite length_fmap).
  assert (Hm' : length (select_dtypes Object df) = m)
    by (unfold select_dtypes; by rewrite length_fmap).
  split.
  - unfold plot_plan. rewrite length_fmap, !length_app, !length_fmap.
    rewrite length_index_pairs, length_overview_plots, Hk', Hm'. lia.
  - intros -> ->. unfold plot_plan.
    apply nil_length_inv in Hk', Hm'. rewrite Hk', Hm'. split; [done|].
    unfold after_renders; cbn. destruct w; cbn. f_equal.
    + apply (left_id_L ∅ (∪)).
    + apply (right_id_L [] (++)).
Qed.

Lemma plan_length_witness :
  (∀ p, always_renders sample_df p = true)
  ∧ length (filter (λ c, c.2 = Number) (dtypes sample_df)) = 2
  ∧ length (filter (λ c, c.2 = Object) (dtypes sample_df)) = 1
  ∧ ∃ plot_paths w',
      auto_generate_plots always_renders sample_df empty_world
        = Return plot_paths w'
      ∧ length plot_paths
        = 2 + choose 2 2 + (if bool_decide (1 ≤ 2) then 2 else 0) + 1
      ∧ (2 = 0 → 1 = 0 → plot_paths = [] ∧ w' = empty_world).
Proof.
  split; [reflexivity|]. split; [reflexivity|]. split; [reflexivity|].
  apply (plan_length always_renders sample_df empty_world 2 1); reflexivity.
Defined.

(** The scatter charts of a plan, each with the index pair it is made for
    and the columns found at these indices. *)
Lemma scatter_charts_of_pairs (cols : list string) (pairs : list (nat * nat)) :
  (∀ i j, (i, j) ∈ pairs → i < j < length cols) →
  Forall2 (λ p ij, ∃ x_col y_col,
      cols !! ij.1 = Some x_col ∧ cols !! ij.2 = Some y_col
      ∧ p = Scatter x_col y_col
              ("scatter_" +:+ x_col +:+ "vs" +:+ y_col +:+ ".png"))
    (scatter_of cols <$> pairs) pairs.
Proof.
  intros Hin. apply Forall2_fmap_l, Forall_Forall2_diag, Forall_forall.
  intros [i j] Hij. apply Hin in Hij.
  exists (item cols i), (item cols j). split_and!.
  - apply list_lookup_lookup_total_lt. lia.
  - apply list_lookup_lookup_total_lt. lia.
  - done.
Qed.

Lemma filter_scatter_plan df :
  filter is_scatter (plot_plan df)
  = scatter_of (select_dtypes Number df)
      <$> index_pairs (length (select_dtypes Number df)).
Proof.
  assert (Hf : ∀ (f : string → Plot) (l : list string),
    (∀ c, is_scatter (f c) = false) → filter is_scatter (f <$> l) = []).
  { intros f l HP. induction l as [|c l IH]; [done|].
    rewrite fmap_cons, filter_cons, HP. apply IH. }
  unfold plot_plan. rewrite !filter_app.
  rewrite (Hf histogram_of), (Hf pie_chart_of) by done.
  replace (filter is_scatter (overview_plots (select_dtypes Number df)))
    with (@nil Plot) by (unfold overview_plots; by case_bool_decide).
  rewrite !(right_id_L [] (++)). cbn [app].
  generalize (index_pairs (length (select_dtypes Number df))) as l.
  induction l as [|ij l IH]; [done|].
  rewrite fmap_cons, filter_cons. cbn. by f_equal.
Qed.

Lemma plan_overview_once df :
  length (filter is_heatmap (plot_plan df)) ≤ 1
  ∧ length (filter is_pairplot (plot_plan df)) ≤ 1.
Proof.
  assert (Hf : ∀ (P : Plot → bool) (f : string → Plot) (l : list string),
    (∀ c, P (f c) = false) → filter P (f <$> l) = []).
  { intros P f l HP. induction l as [|c l IH]; [done|].
    rewrite fmap_cons, filter_cons, HP. apply IH. }
  assert (Hs : ∀ (P : Plot → bool) cols (l : list (nat * nat)),
    (∀ ij, P (scatter_of cols ij) = false) → filter P (scatter_of cols <$> l) = []).
  { intros P cols l HP. induction l as [|c l IH]; [done|].
    rewrite fmap_cons, filter_cons, HP. apply IH. }
  unfold plot_plan. rewrite !filter_app.
  rewrite !(Hf _ histogram_of), !(Hf _ pie_chart_of) by done.
  rewrite (Hs is_heatmap), (Hs is_pairplot) by done.
  unfold overview_plots. split; case_bool_decide; vm_compute; lia.
Qed.

(** C3: the scatter charts of the plan are those of the index pairs
    [(i, j)] with [i < j] below the number of numerical columns, the
    numerical columns being those of dtype number in schema order: every
    such pair, each once, in the order of the nested loops ([i] outside, [j]
    inside), the chart of the pair [(i, j)] being the scatter chart of the
    columns at the indices [i] and [j]; and the plan has at most one
    correlation heatmap and at most one pairplot. *)
Theorem scatter_pairs renderer (df : DataFrame) (w : World) :
  (∀ p, renderer df p = true) →
  let cols := (filter (λ c, c.2 = Number) (dtypes df)).*1 in
  ∃ plan pairs w',
    auto_generate_plots renderer df w = Return (save_path_of <$> plan) w'
    ∧ trace w' = trace w ++ (Rendered <$> plan)
    ∧ Forall2 (λ p ij, ∃ x_col y_col,
          cols !! ij.1 = Some x_col ∧ cols !! ij.2 = Some y_col
          ∧ p = Scatter x_col y_col
                  ("scatter_" +:+ x_col +:+ "vs" +:+ y_col +:+ ".png"))
        (filter is_scatter plan) pairs
    ∧ (∀ i j, (i, j) ∈ pairs ↔ i < j < length cols)
    ∧ NoDup pairs
    ∧ StronglySorted pair_lt pairs
    ∧ length (filter is_heatmap plan) ≤ 1
    ∧ length (filter is_pairplot plan) ≤ 1.
Proof.
  intros Hok cols.
  change cols with (select_dtypes Number df). clear cols.
  exists (plot_plan df), (index_pairs (length (select_dtypes Number df))),
         (after_renders (plot_plan df) w).
  split; [by apply auto_generate_plots_ok|]. split; [done|].
  split_and!.
  - rewrite filter_scatter_plan. apply scatter_charts_of_pairs.
    intros i j. apply elem_of_index_pairs.
  - apply elem_of_index_pairs.
  - apply NoDup_index_pairs.
  - apply index_pairs_sorted.
  - apply plan_overview_once.
  - apply plan_overview_once.
Qed.

Lemma scatter_pairs_witness :
  (∀ p, always_renders survey_df p = true)
  ∧ ∃ plan pairs w',
      auto_generate_plots always_renders survey_df empty_world
        = Return (save_path_of <$> plan) w'
      ∧ trace w' = trace empty_world ++ (Rendered <$> plan)
      ∧ Forall2 (λ p ij, ∃ x_col y_col,
            ["age"; "income"; "score"] !! ij.1 = Some x_col
            ∧ ["age"; "income"; "score"] !! ij.2 = Some y_col
            ∧ p = Scatter x_col y_col
                    ("scatter_" +:+ x_col +:+ "vs" +:+ y_col +:+ ".png"))
          (filter is_scatter plan) pairs
      ∧ (∀ i j, (i, j) ∈ pairs ↔ i < j < 3)
      ∧ NoDup pairs
      ∧ StronglySorted pair_lt pairs
      ∧ length (filter is_heatmap plan) ≤ 1
      ∧ length (filter is_pairplot plan) ≤ 1.
Proof.
  split; [reflexivity|].
  apply (scatter_pairs always_renders survey_df empty_world). reflexivity.
Defined.

(** On the survey data the script renders, in this order, the histograms of
    age, income and score, the scatter charts of (age, income), (age, score)
    and (income, score), the heatmap, the pairplot and the pie chart of
    city; the column joined, of another dtype, is in none of them. *)
Example survey_plan :
  ∃ w',
    auto_generate_plots always_renders survey_df empty_world
    = Return ["histogram_age.png"; "histogram_income.png";
              "histogram_score.png"; "scatter_agevsincome.png";
              "scatter_agevsscore.png"; "scatter_incomevsscore.png";
              "correlation_heatmap.png"; "pairplot.png";
              "pie_chart_city.png"] w'
    ∧ trace w'
      = [Rendered (Histogram "age" "histogram_age.png");
         Rendered (Histogram "income" "histogram_income.png");
         Rendered (Histogram "score" "histogram_score.png");
         Rendered (Scatter "age" "income" "scatter_agevsincome.png");
         Rendered (Scatter "age" "score" "scatter_agevsscore.png");
         Rendered (Scatter "income" "score" "scatter_incomevsscore.png");
         Rendered (CorrelationHeatmap "correlation_heatmap.png");
         Rendered (Pairplot "pairplot.png");
         Rendered (PieChart "city" "pie_chart_city.png")].
Proof. eexists. split; by vm_compute. Qed.

Lemma overview_plots_alt cols :
  overview_plots cols
  = if bool_decide (1 ≤ length cols)
    then [CorrelationHeatmap "correlation_heatmap.png"; Pairplot "pairplot.png"]
    else [].
Proof. by destruct cols. Qed.

(** C4: the plan is, in this order: one histogram per numerical column (the
    columns of dtype number) in schema order; the scatter charts; when
    there is a numerical column, one correlation heatmap and then one
    pairplot; one pie chart per categorical column (the columns of dtype
    object) in schema order.  For the schema age, income (numerical), city
    (categorical) these are the six charts listed. *)
Theorem plan_order renderer (df : DataFrame) (w : World) :
  (∀ p, renderer df p = true) →
  let num := (filter (λ c, c.2 = Number) (dtypes df)).*1 in
  let cat := (filter (λ c, c.2 = Object) (dtypes df)).*1 in
  ∃ scatters w',
    let plan :=
      ((λ col, Histogram col ("histogram_" +:+ col +:+ ".png")) <$> num)
      ++ scatters
      ++ (if bool_decide (1 ≤ length num)
          then [CorrelationHeatmap "correlation_heatmap.png";
                Pairplot "pairplot.png"]
          else [])
      ++ ((λ col, PieChart col ("pie_chart_" +:+ col +:+ ".png")) <$> cat) in
    auto_generate_plots renderer df w = Return (save_path_of <$> plan) w'
    ∧ trace w' = trace w ++ (Rendered <$> plan)
    ∧ Forall is_scatter scatters
    ∧ (dtypes df = [("age", Number); ("income", Number); ("city", Object)] →
       plan = [Histogram "age" "histogram_age.png";
               Histogram "income" "histogram_income.png";
               Scatter "age" "income" "scatter_agevsincome.png";
               CorrelationHeatmap "correlation_heatmap.png";
               Pairplot "pairplot.png";
               PieChart "city" "pie_chart_city.png"]).
Proof.
  intros Hok num cat.
  change num with (select_dtypes Number df).
  change cat with (select_dtypes Object df). clear num cat.
  exists (scatter_of (select_dtypes Number df)
            <$> index_pairs (length (select_dtypes Number df))),
         (after_renders (plot_plan df) w).
  cbn zeta. rewrite <- overview_plots_alt.
  split; [by apply auto_generate_plots_ok|]. split; [done|]. split.
  - apply Forall_fmap, Forall_forall. by intros ij _.
  - intros Hdf. unfold select_dtypes. rewrite Hdf. reflexivity.
Qed.

Lemma plan_order_witness :
  (∀ p, always_renders sample_df p = true)
  ∧ ∃ scatters w',
      let plan :=
        ((λ col, Histogram col ("histogram_" +:+ col +:+ ".png"))
           <$> ["age"; "income"])
        ++ scatters
        ++ (if bool_decide (1 ≤ 2)
            then [CorrelationHeatmap "correlation_heatmap.png";
                  Pairplot "pairplot.png"]
            else [])
        ++ ((λ col, PieChart col ("pie_chart_" +:+ col +:+ ".png"))
              <$> ["city"]) in
      auto_generate_plots always_renders sample_df empty_world
        = Return (save_path_of <$> plan) w'
      ∧ trace w' = trace empty_world ++ (Rendered <$> plan)
      ∧ Forall is_scatter scatters
      ∧ (dtypes sample_df
           = [("age", Number); ("income", Number); ("city", Object)] →
         plan = [Histogram "age" "histogram_age.png";
                 Histogram "income" "histogram_income.png";
                 Scatter "age" "income" "scatter_agevsincome.png";
                 CorrelationHeatmap "correlation_heatmap.png";
                 Pairplot "pairplot.png";
                 PieChart "city" "pie_chart_city.png"]).
Proof.
  split; [reflexivity|].
  apply (plan_order always_renders sample_df empty_world). reflexivity.
Defined.

(** ** Artifact names *)

Lemma app_String a s t : String a s +:+ t = String a (s +:+ t).
Proof. reflexivity. Qed.

Lemma app_empty_l t : "" +:+ t = t.
Proof. reflexivity. Qed.

Lemma length_string_app s t :
  String.length (s +:+ t) = String.length s + String.length t.
Proof. induction s as [|a s IH]; [done|]. rewrite app_String. cbn. by rewrite IH. Qed.

Lemma string_app_inj_r s s' t : s +:+ t = s' +:+ t → s = s'.
Proof.
  revert s'. induction s as [|a s IH]; intros [|a' s'] H.
  - done.
  - apply (f_equal String.length) in H.
    rewrite app_empty_l, app_String in H. cbn in H.
    rewrite length_string_app in H. lia.
  - apply (f_equal String.length) in H.
    rewrite app_empty_l, app_String in H. cbn in H.
    rewrite length_string_app in H. lia.
  - rewrite !app_String in H. injection H as -> H. f_equal. by apply IH.
Qed.

Lemma contains_tail pat a s : contains pat (String a s) = false → contains pat s = false.
Proof. cbn. by intros [_ ?]%orb_false_elim. Qed.

(** Push the characters of a literal out of an append. *)
Ltac push_app H := repeat (rewrite app_String in H || rewrite app_empty_l in H).

(** A name without ["vs"] inside is recovered from what follows it. *)
Lemma vs_split x y x' y' :
  contains "vs" x = false → contains "vs" x' = false →
  x +:+ "vs" +:+ y = x' +:+ "vs" +:+ y' → x = x' ∧ y = y'.
Proof.
  revert x'. induction x as [|a x IH]; intros [|a' x'] Hx Hx' H.
  - split; [done|]. by apply (inj (String.app "vs")) in H.
  - exfalso. push_app H. injection H as <- H.
    destruct x' as [|b x']; push_app H.
    + by injection H.
    + injection H as <- _. cbn in Hx'. by destruct x'.
  - exfalso. push_app H. injection H as -> H.
    destruct x as [|b x]; push_app H.
    + by injection H.
    + injection H as -> _. cbn in Hx. by destruct x.
  - push_app H. injection H as -> H.
    destruct (IH x') as [-> ->]; eauto using contains_tail.
Qed.

Lemma scatter_name_inj x y x' y' :
  contains "vs" x = false → contains "vs" x' = false →
  scatter_name x y = scatter_name x' y' → x = x' ∧ y = y'.
Proof.
  intros Hx Hx' H. unfold scatter_name in H.
  apply (inj (String.app "scatter_")) in H.
  assert (H' : (x +:+ "vs" +:+ y) +:+ ".png" = (x' +:+ "vs" +:+ y') +:+ ".png").
  { revert H. generalize ".png". intros e H.
    clear -H. revert H.
    assert (Ha : ∀ a b c, (a +:+ b) +:+ c = a +:+ b +:+ c).
    { intros a b c. induction a as [|ch a IHa]; [done|].
      rewrite !app_String. by f_equal. }
    by rewrite !Ha. }
  apply string_app_inj_r in H'. by apply vs_split.
Qed.

Lemma plan_paths df :
  let num := select_dtypes Number df in
  let cat := select_dtypes Object df in
  save_path_of <$> plot_plan df
  = ((λ col, "histogram_" +:+ col +:+ ".png") <$> num)
    ++ ((λ ij : nat * nat,
           "scatter_" +:+ item num ij.1 +:+ "vs" +:+ item num ij.2 +:+ ".png")
          <$> index_pairs (length num))
    ++ (if bool_decide (1 ≤ length num)
        then ["correlation_heatmap.png"; "pairplot.png"] else [])
    ++ ((λ col, "pie_chart_" +:+ col +:+ ".png") <$> cat).
Proof.
  intros num cat. unfold plot_plan. fold num cat.
  rewrite !fmap_app, overview_plots_alt, <- !list_fmap_compose.
  do 2 f_equal. f_equal. by case_bool_decide.
Qed.

Lemma plot_plan_schema df df' : dtypes df' = dtypes df → plot_plan df' = plot_plan df.
Proof. intros H. unfold plot_plan, select_dtypes. by rewrite H. Qed.

Lemma select_dtypes_NoDup t df : NoDup (columns df) → NoDup (select_dtypes t df).
Proof.
  unfold columns, select_dtypes. intros H.
  eapply sublist_NoDup; [exact H|]. apply fmap_sublist, sublist_filter.
Qed.

Lemma single_name_inj (kind : string) : Inj (=) (=) (λ col, kind +:+ col +:+ ".png").
Proof. intros c c' H. apply (inj (String.app kind)) in H. by apply string_app_inj_r in H. Qed.

Lemma item_elem_of (cols : list string) i : i < length cols → item cols i ∈ cols.
Proof.
  intros Hi. unfold item. apply list_elem_of_lookup. exists i.
  by apply list_lookup_lookup_total_lt.
Qed.

Lemma item_inj (cols : list string) i j :
  NoDup cols → i < length cols → j < length cols → item cols i = item cols j → i = j.
Proof.
  intros Hnd Hi Hj H. unfold item in H.
  apply (NoDup_lookup cols i j (cols !!! i)); [done|..].
  - by apply list_lookup_lookup_total_lt.
  - rewrite H. by apply list_lookup_lookup_total_lt.
Qed.

(** The paths of a plan are pairwise distinct when the column names are and
    no numerical column has ["vs"] in its name. *)
Lemma plan_paths_NoDup df :
  NoDup (columns df) →
  (∀ col, col ∈ select_dtypes Number df → contains "vs" col = false) →
  NoDup (save_path_of <$> plot_plan df).
Proof.
  intros Hcols Hvs. rewrite plan_paths. cbn zeta.
  set (num := select_dtypes Number df) in *. set (cat := select_dtypes Object df).
  assert (Hnum : NoDup num) by by apply select_dtypes_NoDup.
  assert (Hcat : NoDup cat) by by apply select_dtypes_NoDup.
  assert (Ho : ∀ x, x ∈ (if bool_decide (1 ≤ length num)
        then ["correlation_heatmap.png"; "pairplot.png"] else [])
      → x = "correlation_heatmap.png" ∨ x = "pairplot.png").
  { intros x. case_bool_decide; [|by intros ?%elem_of_nil].
    rewrite !elem_of_cons. intros [?|[?|?%elem_of_nil]]; auto. done. }
  rewrite !NoDup_app. split_and!.
  - apply NoDup_fmap_2; [apply (single_name_inj "histogram_")|done].
  - intros x (c & -> & _)%list_elem_of_fmap.
    rewrite !elem_of_app. intros [Hin|[Hin|Hin]].
    + apply list_elem_of_fmap in Hin as (ij & H & _). push_app H. discriminate H.
    + apply Ho in Hin as [H|H]; push_app H; discriminate H.
    + apply list_elem_of_fmap in Hin as (c' & H & _). push_app H. discriminate H.
  - apply NoDup_fmap_2_strong; [|apply NoDup_index_pairs].
    intros [i j] [i' j'] Hij%elem_of_index_pairs Hij'%elem_of_index_pairs H.
    cbn in H. apply scatter_name_inj in H as [Hi Hj].
    + cbn in Hi, Hj. f_equal; apply (item_inj num); (done || lia).
    + apply Hvs, item_elem_of. lia.
    + apply Hvs, item_elem_of. lia.
  - intros x (ij & -> & _)%list_elem_of_fmap.
    rewrite !elem_of_app. intros [Hin|Hin].
    + apply Ho in Hin as [H|H]; push_app H; discriminate H.
    + apply list_elem_of_fmap in Hin as (c' & H & _). push_app H. discriminate H.
  - case_bool_decide; [|constructor].
    apply NoDup_cons. split; [|apply NoDup_singleton].
    by intros [=]%list_elem_of_singleton.
  - intros x Hin%Ho (c' & H & _)%list_elem_of_fmap.
    destruct Hin as [->| ->]; push_app H; discriminate H.
  - apply NoDup_fmap_2; [apply (single_name_inj "pie_chart_")|done].
Qed.

(** C6, as stated, fails: the names are not free of collisions.  On four
    distinct numerical columns a, bvsc, avsb, c the scatter charts of
    (a, bvsc) and of (avsb, c) are two different requests of the same plan
    saved under the one name scatter_avsbvsc.png. *)
Lemma scatter_names_collide :
  NoDup (columns collision_df)
  ∧ ∃ plot_paths w',
      auto_generate_plots always_renders collision_df empty_world
        = Return plot_paths w'
      ∧ trace w' !! 4 = Some (Rendered (Scatter "a" "bvsc" "scatter_avsbvsc.png"))
      ∧ trace w' !! 9 = Some (Rendered (Scatter "avsb" "c" "scatter_avsbvsc.png"))
      ∧ plot_paths !! 4 = Some "scatter_avsbvsc.png"
      ∧ plot_paths !! 9 = Some "scatter_avsbvsc.png"
      ∧ ¬ NoDup plot_paths.
Proof.
  split; [by apply (bool_decide_unpack _)|].
  eexists _, _. split; [by apply auto_generate_plots_ok|].
  split; [reflexivity|]. split; [reflexivity|].
  split; [reflexivity|]. split; [reflexivity|].
  intros Hnd.
  by pose proof (NoDup_lookup _ 4 9 "scatter_avsbvsc.png" Hnd eq_refl eq_refl).
Qed.

(** C6, amended: the paths of the plan are
    [histogram_{col}.png] per numerical column,
    [scatter_{col_i}vs{col_j}.png] per index pair,
    [correlation_heatmap.png] and [pairplot.png], and
    [pie_chart_{col}.png] per categorical column; two runs on data frames
    with the same columns and dtypes (whatever their rows, their renderers
    and the worlds they start in) return the same paths and render the same
    charts in the same order; and the paths are pairwise distinct when the
    column names are distinct and no numerical column name contains "vs". *)
Theorem artifact_names renderer renderer' (df df' : DataFrame) (w w2 : World) :
  (∀ p, renderer df p = true) →
  (∀ p, renderer' df' p = true) →
  dtypes df' = dtypes df →
  let num := select_dtypes Number df in
  let cat := select_dtypes Object df in
  ∃ plan w' w2',
    let plot_paths :=
      ((λ col, "histogram_" +:+ col +:+ ".png") <$> num)
      ++ ((λ ij : nat * nat,
             "scatter_" +:+ item num ij.1 +:+ "vs" +:+ item num ij.2 +:+ ".png")
            <$> index_pairs (length num))
      ++ (if bool_decide (1 ≤ length num)
          then ["correlation_heatmap.png"; "pairplot.png"] else [])
      ++ ((λ col, "pie_chart_" +:+ col +:+ ".png") <$> cat) in
    auto_generate_plots renderer df w = Return plot_paths w'
    ∧ auto_generate_plots renderer' df' w2 = Return plot_paths w2'
    ∧ plot_paths = save_path_of <$> plan
    ∧ trace w' = trace w ++ (Rendered <$> plan)
    ∧ trace w2' = trace w2 ++ (Rendered <$> plan)
    ∧ (NoDup (columns df) →
       (∀ col, col ∈ num → contains "vs" col = false) →
       NoDup plot_paths).
Proof.
  intros Hok Hok' Hdf num cat.
  exists (plot_plan df), (after_renders (plot_plan df) w),
         (after_renders (plot_plan df) w2).
  cbn zeta. subst num cat. rewrite <- (plan_paths df). split_and!.
  - by apply auto_generate_plots_ok.
  - rewrite <- (plot_plan_schema df df') by done. by apply auto_generate_plots_ok.
  - done.
  - done.
  - done.
  - apply plan_paths_NoDup.
Qed.

Lemma artifact_names_witness :
  (∀ p, always_renders sample_df p = true)
  ∧ (∀ p, always_renders sample_df' p = true)
  ∧ dtypes sample_df' = dtypes sample_df
  ∧ ∃ plan w' w2',
      let num := select_dtypes Number sample_df in
      let cat := select_dtypes Object sample_df in
      let plot_paths :=
        ((λ col, "histogram_" +:+ col +:+ ".png") <$> num)
        ++ ((λ ij : nat * nat,
               "scatter_" +:+ item num ij.1 +:+ "vs" +:+ item num ij.2 +:+ ".png")
              <$> index_pairs (length num))
        ++ (if bool_decide (1 ≤ length num)
            then ["correlation_heatmap.png"; "pairplot.png"] else [])
        ++ ((λ col, "pie_chart_" +:+ col +:+ ".png") <$> cat) in
      auto_generate_plots always_renders sample_df empty_world
        = Return plot_paths w'
      ∧ auto_generate_plots always_renders sample_df' empty_world
        = Return plot_paths w2'
      ∧ plot_paths = save_path_of <$> plan
      ∧ trace w' = trace empty_world ++ (Rendered <$> plan)
      ∧ trace w2' = trace empty_world ++ (Rendered <$> plan)
      ∧ (NoDup (columns sample_df) →
         (∀ col, col ∈ num → contains "vs" col = false) →
         NoDup plot_paths).
Proof.
  split; [reflexivity|]. split; [reflexivity|]. split; [reflexivity|].
  apply (artifact_names always_renders always_renders sample_df sample_df'
           empty_world empty_world); reflexivity.
Defined.

(** On the sample data frame the side conditions of distinctness hold. *)
Example sample_paths_distinct : NoDup (save_path_of <$> plot_plan sample_df).
Proof.
  apply plan_paths_NoDup; [by apply (bool_decide_unpack _)|].
  intros col Hcol. change (col ∈ ["age"; "income"]) in Hcol.
  rewrite !elem_of_cons in Hcol. by destruct Hcol as [->|[->|?%elem_of_nil]].
Qed.

(** ** Pagination *)

Lemma cursor_y_parity n : cursor_y n = if Nat.even n then 642%Z else 292%Z.
Proof.
  induction n as [|n IH]; [done|].
  cbn [cursor_y]. rewrite IH, Nat.even_succ, <- Nat.negb_even.
  by destruct (Nat.even n).
Qed.

Lemma place_plot_ok n plot_path c w :
  plot_path ∈ files w →
  place_plot 792 plot_path (c, cursor_y n) w
  = Return (c ++ placement n plot_path, cursor_y (S n)) w.
Proof.
  intros Hin. unfold place_plot, drawImage, bind, file_exists, placement.
  rewrite bool_decide_true by done. unfold ret. cbn [cursor_y].
  case_bool_decide; [|done].
  by rewrite <- !(assoc_L (++)).
Qed.

Lemma place_loop plot_paths n c w :
  (∀ p, p ∈ plot_paths → p ∈ files w) →
  for_each plot_paths (place_plot 792) (c, cursor_y n) w
  = Return (c ++ mjoin (imap (λ i, placement (n + i)) plot_paths),
            cursor_y (n + length plot_paths)) w.
Proof.
  revert n c. induction plot_paths as [|p ps IH]; intros n c Hin.
  - cbn. unfold ret. by rewrite (right_id_L [] (++)), Nat.add_0_r.
  - cbn [for_each]. unfold bind. rewrite place_plot_ok by (apply Hin; left).
    rewrite IH by (intros; apply Hin; by right).
    rewrite imap_cons. cbn [mjoin list_join length]. rewrite Nat.add_0_r.
    rewrite <- (assoc_L (++)), Nat.add_succ_r. do 5 f_equal.
    apply imap_ext. intros i x _. cbn. by rewrite Nat.add_succ_r.
Qed.

(** When the image files can be read, the report is saved, and its canvas is
    the header followed by the placements of the plots in order. *)
Lemma generate_pdf_report_ok plot_paths output_filename w :
  (∀ p, p ∈ plot_paths → p ∈ files w) →
  generate_pdf_report plot_paths output_filename w
  = Return () (saved output_filename
                 (header ++ mjoin (imap placement plot_paths)) w).
Proof.
  intros Hin. unfold generate_pdf_report, letter, bind.
  change (792 - 150)%Z with (cursor_y 0).
  change ([] ++ [SetFont "Helvetica-Bold" 18]
            ++ [DrawString 100 (792 - 100) "Data Visualization Report"])
    with header.
  by rewrite place_loop.
Qed.

(** An unreadable image ends the report with its error, before anything is
    saved. *)
Lemma generate_pdf_report_unreadable pre p post output_filename w :
  (∀ q, q ∈ pre → q ∈ files w) →
  p ∉ files w →
  generate_pdf_report (pre ++ p :: post) output_filename w
  = Raise (ArtifactReadError p) w.
Proof.
  intros Hin Hp. unfold generate_pdf_report, letter, bind.
  change (792 - 150)%Z with (cursor_y 0).
  rewrite for_each_app. unfold bind. rewrite place_loop by done.
  cbn [for_each]. unfold bind, place_plot, drawImage, bind, file_exists.
  by rewrite bool_decide_false.
Qed.

(** C1: the report starts with the header and the cursor at 792 - 150 = 642;
    the plot of index [n] is drawn at x = 100 and at the cursor, 400 wide and
    300 high; the cursor then goes down by 350, and when it is below 100,
    after the placement, the page is closed, the header is drawn again and
    the cursor is back at 642.  This also happens after the last plot: the
    canvas then ends with a page that holds the header alone. *)
Theorem pagination_rule (plot_paths : list string) (output_filename : string)
    (w : World) :
  (∀ p, p ∈ plot_paths → p ∈ files w) →
  ∃ ops,
    generate_pdf_report plot_paths output_filename w
      = Return () (saved output_filename ops w)
    ∧ ops
      = [SetFont "Helvetica-Bold" 18;
         DrawString 100 692 "Data Visualization Report"]
        ++ mjoin (imap (λ n plot_path,
             DrawImage plot_path 100 (cursor_y n) 400 300
             :: (if bool_decide (cursor_y n - 350 < 100)%Z
                 then [ShowPage; SetFont "Helvetica-Bold" 18;
                       DrawString 100 692 "Data Visualization Report"]
                 else [])) plot_paths)
    ∧ cursor_y 0 = 642%Z
    ∧ (∀ n, cursor_y (S n)
            = if bool_decide (cursor_y n - 350 < 100)%Z then 642%Z
              else (cursor_y n - 350)%Z)
    ∧ (∀ pre plot_path,
         plot_paths = pre ++ [plot_path] →
         (cursor_y (length pre) - 350 < 100)%Z →
         ∃ ops',
           ops = ops'
                 ++ [DrawImage plot_path 100 (cursor_y (length pre)) 400 300;
                     ShowPage; SetFont "Helvetica-Bold" 18;
                     DrawString 100 692 "Data Visualization Report"]).
Proof.
  intros Hin. eexists. split; [by apply generate_pdf_report_ok|].
  split; [done|]. split; [done|]. split; [done|].
  intros pre p -> Hlow.
  exists (header ++ mjoin (imap placement pre)).
  rewrite imap_app, join_app, (assoc_L (++)). f_equal.
  cbn. rewrite Nat.add_0_r. unfold placement.
  by rewrite bool_decide_true by done.
Qed.

Lemma pagination_rule_witness :
  (∀ p, p ∈ ["a.png"; "b.png"] → p ∈ files two_plots_world)
  ∧ ∃ ops,
      generate_pdf_report ["a.png"; "b.png"] "report.pdf" two_plots_world
        = Return () (saved "report.pdf" ops two_plots_world)
      ∧ ops
        = [SetFont "Helvetica-Bold" 18;
           DrawString 100 692 "Data Visualization Report"]
          ++ mjoin (imap (λ n plot_path,
               DrawImage plot_path 100 (cursor_y n) 400 300
               :: (if bool_decide (cursor_y n - 350 < 100)%Z
                   then [ShowPage; SetFont "Helvetica-Bold" 18;
                         DrawString 100 692 "Data Visualization Report"]
                   else [])) ["a.png"; "b.png"])
      ∧ cursor_y 0 = 642%Z
      ∧ (∀ n, cursor_y (S n)
              = if bool_decide (cursor_y n - 350 < 100)%Z then 642%Z
                else (cursor_y n - 350)%Z)
      ∧ (∀ pre plot_path,
           ["a.png"; "b.png"] = pre ++ [plot_path] →
           (cursor_y (length pre) - 350 < 100)%Z →
           ∃ ops',
             ops = ops'
                   ++ [DrawImage plot_path 100 (cursor_y (length pre)) 400 300;
                       ShowPage; SetFont "Helvetica-Bold" 18;
                       DrawString 100 692 "Data Visualization Report"]).
Proof.
  assert (Hin : ∀ p, p ∈ ["a.png"; "b.png"] → p ∈ files two_plots_world).
  { intros p Hp. rewrite !elem_of_cons in Hp.
    destruct Hp as [->|[->|Hp]]; [by vm_compute..|by apply elem_of_nil in Hp]. }
  split; [exact Hin|].
  exact (pagination_rule ["a.png"; "b.png"] "report.pdf" two_plots_world Hin).
Defined.

(** Two plots fill the first page: the canvas ends with the second page,
    which holds the header alone. *)
Example two_plots_canvas :
  generate_pdf_report ["a.png"; "b.png"] "report.pdf" two_plots_world
  = Return ()
      {| files := {["report.pdf"; "a.png"; "b.png"]};
         stdin := [];
         trace := [SavedPdf "report.pdf"
           [SetFont "Helvetica-Bold" 18;
            DrawString 100 692 "Data Visualization Report";
            DrawImage "a.png" 100 642 400 300;
            DrawImage "b.png" 100 292 400 300;
            ShowPage;
            SetFont "Helvetica-Bold" 18;
            DrawString 100 692 "Data Visualization Report"]] |}.
Proof. by vm_compute. Qed.

(** ** Pages *)

Lemma list_ind2 {A} (P : list A → Prop) :
  P [] → (∀ x, P [x]) → (∀ x y l, P l → P (x :: y :: l)) → ∀ l, P l.
Proof.
  intros H0 H1 H2 l. enough (P l ∧ ∀ x, P (x :: l)) by tauto.
  induction l as [|y l [IH IH']]; [by split|].
  split; [apply IH' | intros x; by apply H2].
Qed.

Lemma report_ops_eq plot_paths :
  report_ops plot_paths = header ++ mjoin (imap placement plot_paths).
Proof.
  unfold report_ops. rewrite generate_pdf_report_ok; [done|].
  intros p Hp. cbn. by apply elem_of_list_to_set.
Qed.

Lemma placement_even n p :
  Nat.even n = true → placement n p = [DrawImage p 100 642 400 300].
Proof. intros Hn. unfold placement. by rewrite cursor_y_parity, Hn. Qed.

Lemma placement_odd n p :
  Nat.even n = false →
  placement n p = DrawImage p 100 292 400 300 :: ShowPage :: header.
Proof. intros Hn. unfold placement. by rewrite cursor_y_parity, Hn. Qed.

Lemma pages_placements plot_paths n :
  Nat.even n = true →
  pages (header ++ mjoin (imap (λ i, placement (n + i)) plot_paths))
  = page_list plot_paths.
Proof.
  revert n. induction plot_paths as [|p|p q rest IH] using list_ind2; intros n Hn.
  - done.
  - rewrite imap_cons, Nat.add_0_r, placement_even by done. done.
  - rewrite !imap_cons. cbn [mjoin list_join]. unfold compose. cbn beta.
    rewrite Nat.add_0_r, placement_even by done.
    rewrite placement_odd by (by rewrite Nat.add_1_r, Nat.even_succ, <- Nat.negb_even, Hn).
    assert (Hshift : imap (λ x, placement (n + S (S x))) rest
                     = imap (λ i, placement (S (S n) + i)) rest).
    { apply imap_ext. intros i x _. by rewrite !Nat.add_succ_r. }
    rewrite Hshift. cbn [page_list]. by rewrite <- (IH (S (S n))).
Qed.

(** The report has two plots on every page but the last. *)
Lemma pages_report plot_paths : pages (report_ops plot_paths) = page_list plot_paths.
Proof. rewrite report_ops_eq. by apply (pages_placements plot_paths 0). Qed.

Lemma length_page_list plot_paths :
  length (page_list plot_paths) = length plot_paths / 2 + 1.
Proof.
  induction plot_paths as [|p|p q rest IH] using list_ind2; [done..|].
  cbn [page_list length]. rewrite IH.
  change (S (S (length rest))) with (1 * 2 + length rest).
  rewrite Nat.div_add_l by done. lia.
Qed.

Lemma page_list_images plot_paths page :
  page ∈ page_list plot_paths → length (filter is_image page) ≤ 2.
Proof.
  induction plot_paths as [|p|p q rest IH] using list_ind2.
  - intros ->%list_elem_of_singleton. vm_compute. lia.
  - intros ->%list_elem_of_singleton. vm_compute. lia.
  - cbn [page_list]. intros [->|Hin]%elem_of_cons; [vm_compute; lia | by apply IH].
Qed.

Lemma capacity_two : per_page_capacity 2.
Proof.
  split.
  - intros plot_paths page. rewrite pages_report. apply page_list_images.
  - exists ["a.png"; "b.png"],
      (header ++ [DrawImage "a.png" 100 642 400 300;
                  DrawImage "b.png" 100 292 400 300]).
    split; [|done]. rewrite pages_report. by left.
Qed.

Lemma capacity_unique P : per_page_capacity P → P = 2.
Proof.
  intros [Hmax (paths & page & Hin & Hlen)].
  destruct capacity_two as [Hmax2 (paths2 & page2 & Hin2 & Hlen2)].
  apply Hmax2 in Hin. apply Hmax in Hin2. lia.
Qed.

(** C7, as stated, fails: two plots fit on a page, and a report of exactly
    two plots has a second page, on which there is the header and no plot. *)
Lemma full_page_starts_header_page :
  per_page_capacity 2
  ∧ length (pages (report_ops ["a.png"; "b.png"])) = 2
  ∧ pages (report_ops ["a.png"; "b.png"])
    = [[SetFont "Helvetica-Bold" 18;
        DrawString 100 692 "Data Visualization Report";
        DrawImage "a.png" 100 642 400 300;
        DrawImage "b.png" 100 292 400 300];
       [SetFont "Helvetica-Bold" 18;
        DrawString 100 692 "Data Visualization Report"]].
Proof. split; [apply capacity_two|]. split; by vm_compute. Qed.

(** C7, amended: two plots fit on a page, and a report of [N] plots has
    [N / 2 + 1] pages (division rounding down).  With [N = 2] the report has
    a second page holding the header alone; with [N = 3] it has a second
    page holding the header and the third plot. *)
Theorem page_count (plot_paths : list string) :
  per_page_capacity 2
  ∧ length (pages (report_ops plot_paths)) = length plot_paths / 2 + 1
  ∧ (∀ a b,
       pages (report_ops [a; b])
       = [[SetFont "Helvetica-Bold" 18;
           DrawString 100 692 "Data Visualization Report";
           DrawImage a 100 642 400 300;
           DrawImage b 100 292 400 300];
          [SetFont "Helvetica-Bold" 18;
           DrawString 100 692 "Data Visualization Report"]])
  ∧ (∀ a b c,
       pages (report_ops [a; b; c])
       = [[SetFont "Helvetica-Bold" 18;
           DrawString 100 692 "Data Visualization Report";
           DrawImage a 100 642 400 300;
           DrawImage b 100 292 400 300];
          [SetFont "Helvetica-Bold" 18;
           DrawString 100 692 "Data Visualization Report";
           DrawImage c 100 642 400 300]]).
Proof.
  split; [apply capacity_two|].
  split; [by rewrite pages_report, length_page_list|].
  split; intros; by rewrite pages_report.
Qed.

(** C10: with no plot the report is saved without an error; its canvas is
    the header and nothing else, which is one page: no image is drawn and
    no page is closed. *)
Theorem empty_report (output_filename : string) (w : World) :
  generate_pdf_report [] output_filename w
  = Return ()
      {| files := {[output_filename]} ∪ files w;
         stdin := stdin w;
         trace := trace w ++
           [SavedPdf output_filename
              [SetFont "Helvetica-Bold" 18;
               DrawString 100 692 "Data Visualization Report"]] |}
  ∧ pages (report_ops [])
    = [[SetFont "Helvetica-Bold" 18;
        DrawString 100 692 "Data Visualization Report"]].
Proof. split; reflexivity. Qed.

(** ** The report branch of the menu *)

Lemma remove_loop paths w :
  NoDup paths →
  (∀ p, p ∈ paths → p ∈ files w) →
  for_each paths (λ plot_path _, os_remove plot_path) () w
  = Return () (after_removes paths w).
Proof.
  intros Hnd. revert w. induction Hnd as [|p ps Hp Hnd IH]; intros w Hin.
  - cbn. unfold ret, after_removes; cbn. destruct w; cbn.
    by rewrite difference_empty_L, (right_id_L [] (++)).
  - cbn [for_each]. unfold bind, os_remove, bind, file_exists.
    rewrite bool_decide_true by (apply Hin; left).
    unfold delete_file, emit. rewrite IH.
    + unfold after_removes; cbn.
      by rewrite difference_difference_l_L, <- (assoc_L (++)).
    + intros q Hq. cbn. apply elem_of_difference. split; [apply Hin; by right|].
      intros ->%elem_of_singleton. done.
Qed.

(** No artifact is saved under the name of the report. *)
Lemma report_not_artifact df :
  "data_visualization_report.pdf" ∉ save_path_of <$> plot_plan df.
Proof.
  rewrite plan_paths. cbn zeta. rewrite !elem_of_app.
  intros [Hin|[Hin|[Hin|Hin]]].
  - apply list_elem_of_fmap in Hin as (c & H & _). push_app H. discriminate H.
  - apply list_elem_of_fmap in Hin as (c & H & _). push_app H. discriminate H.
  - case_bool_decide; [|by apply elem_of_nil in Hin].
    rewrite !elem_of_cons in Hin. by destruct Hin as [?|[?|?%elem_of_nil]].
  - apply list_elem_of_fmap in Hin as (c & H & _). push_app H. discriminate H.
Qed.

Section Report.

Variable renderer : DataFrame → Plot → bool.
Variable df : DataFrame.

(** Every chart renders and no two charts share a path: the charts are
    rendered, the report is saved, its name is printed, the images are
    removed. *)
Lemma pdf_report_ok w :
  (∀ p, p ∈ plot_plan df → renderer df p = true) →
  NoDup (save_path_of <$> plot_plan df) →
  pdf_report renderer df w
  = Return ()
      (after_removes (save_path_of <$> plot_plan df)
         (printed "PDF report generated: data_visualization_report.pdf"
            (saved "data_visualization_report.pdf"
               (report_ops (save_path_of <$> plot_plan df))
               (after_renders (plot_plan df) w)))).
Proof.
  intros Hok Hnd. unfold pdf_report, bind.
  rewrite auto_generate_plots_ok by done.
  rewrite generate_pdf_report_ok, <- report_ops_eq.
  2:{ intros p Hp. cbn. apply elem_of_union_l. by apply elem_of_list_to_set. }
  unfold print, emit. rewrite remove_loop; [done|done|].
  intros p Hp. cbn. apply elem_of_union_r, elem_of_union_l.
  by apply elem_of_list_to_set.
Qed.

(** A chart does not render: the error leaves the branch at once. *)
Lemma pdf_report_render_error pre p post w :
  plot_plan df = pre ++ p :: post →
  (∀ q, q ∈ pre → renderer df q = true) →
  renderer df p = false →
  pdf_report renderer df w = Raise (RenderError p) (after_renders pre w).
Proof.
  intros Hplan Hok Hp. unfold pdf_report, bind.
  by rewrite auto_generate_plots_run, Hplan, run_plots_fail.
Qed.

End Report.

(** ** The menu *)

Section Menu.

Variable renderer : DataFrame → Plot → bool.
Variable read_csv : string → option DataFrame.

Lemma main_choice w file_path choice rest df :
  stdin w = file_path :: choice :: rest →
  read_csv file_path = Some df →
  main renderer read_csv w
  = (if bool_decide (choice = "1") then
       bind (auto_generate_plots renderer df) (λ _, ret ())
     else if bool_decide (choice = "2") then specific_plots renderer df
     else if bool_decide (choice = "3") then pdf_report renderer df
     else print "Invalid choice.") (asked (menu_events df) rest w).
Proof.
  intros Hin Hcsv.
  unfold main, bind, input, bind, load_data, print, emit. cbn.
  rewrite Hin, Hcsv. cbn.
  unfold asked, menu_events. by rewrite <- !(assoc_L (++)).
Qed.

Lemma main_pdf_report w file_path rest df :
  stdin w = file_path :: "3" :: rest →
  read_csv file_path = Some df →
  main renderer read_csv w
  = pdf_report renderer df (asked (menu_events df) rest w).
Proof. intros Hin Hcsv. by rewrite (main_choice w file_path "3" rest df). Qed.

Lemma main_specific_plots w file_path rest df :
  stdin w = file_path :: "2" :: rest →
  read_csv file_path = Some df →
  main renderer read_csv w
  = specific_plots renderer df (asked (menu_events df) rest w).
Proof. intros Hin Hcsv. by rewrite (main_choice w file_path "2" rest df). Qed.

End Menu.

(** ** Failing renders and cleanup *)

(** C5, as stated, fails: in a plan of five charts whose third chart does
    not render, the report branch of [main] ends with the error of that
    chart; the two charts after it are never rendered and no document is
    saved. *)
Lemma failed_render_stops_report :
  length (plot_plan two_numeric_df) = 5
  ∧ main no_scatter (λ _, Some two_numeric_df) report_session
    = Raise (RenderError (Scatter "age" "income" "scatter_agevsincome.png"))
        {| files := {["histogram_age.png"; "histogram_income.png"]};
           stdin := [];
           trace := menu_events two_numeric_df ++
             [Rendered (Histogram "age" "histogram_age.png");
              Rendered (Histogram "income" "histogram_income.png")] |}.
Proof. split; by vm_compute. Qed.

(** C5, amended: when a chart of the plan does not render, the report
    branch of [main] raises the error of the first such chart; the charts
    before it have been rendered and their files are on disk, no chart
    after it is rendered, no document is saved and nothing is removed. *)
Theorem render_failure_aborts renderer read_csv (df : DataFrame) (w : World)
    (file_path : string) (rest : list string) (pre : list Plot) (p : Plot)
    (post : list Plot) :
  stdin w = file_path :: "3" :: rest →
  read_csv file_path = Some df →
  plot_plan df = pre ++ p :: post →
  (∀ q, q ∈ pre → renderer df q = true) →
  renderer df p = false →
  ∃ w',
    main renderer read_csv w = Raise (RenderError p) w'
    ∧ trace w' = trace w ++ menu_events df ++ (Rendered <$> pre)
    ∧ files w' = list_to_set (save_path_of <$> pre) ∪ files w
    ∧ auto_generate_plots renderer df w
      = Raise (RenderError p) (after_renders pre w).
Proof.
  intros Hin Hcsv Hplan Hok Hp.
  exists (after_renders pre (asked (menu_events df) rest w)).
  split; [|split; [|split]].
  - rewrite (main_pdf_report _ _ w file_path rest df) by done.
    by apply pdf_report_render_error with post.
  - unfold after_renders, asked. cbn [trace]. by rewrite <- (assoc_L (++)).
  - done.
  - by rewrite auto_generate_plots_run, Hplan, run_plots_fail.
Qed.

Lemma render_failure_aborts_witness :
  stdin report_session = "data.csv" :: "3" :: []
  ∧ (λ _, Some two_numeric_df) "data.csv" = Some two_numeric_df
  ∧ plot_plan two_numeric_df
    = [Histogram "age" "histogram_age.png";
       Histogram "income" "histogram_income.png"]
      ++ Scatter "age" "income" "scatter_agevsincome.png"
      :: [CorrelationHeatmap "correlation_heatmap.png"; Pairplot "pairplot.png"]
  ∧ ∃ w',
      main no_scatter (λ _, Some two_numeric_df) report_session
        = Raise (RenderError (Scatter "age" "income" "scatter_agevsincome.png")) w'
      ∧ trace w'
        = trace report_session ++ menu_events two_numeric_df
          ++ (Rendered <$> [Histogram "age" "histogram_age.png";
                            Histogram "income" "histogram_income.png"])
      ∧ files w'
        = list_to_set (save_path_of <$> [Histogram "age" "histogram_age.png";
                                          Histogram "income" "histogram_income.png"])
          ∪ files report_session
      ∧ auto_generate_plots no_scatter two_numeric_df report_session
        = Raise (RenderError (Scatter "age" "income" "scatter_agevsincome.png"))
            (after_renders [Histogram "age" "histogram_age.png";
                            Histogram "income" "histogram_income.png"]
               report_session).
Proof.
  split; [reflexivity|]. split; [reflexivity|]. split; [reflexivity|].
  apply (render_failure_aborts no_scatter (λ _, Some two_numeric_df)
           two_numeric_df report_session "data.csv" []
           [Histogram "age" "histogram_age.png";
            Histogram "income" "histogram_income.png"]
           (Scatter "age" "income" "scatter_agevsincome.png")
           [CorrelationHeatmap "correlation_heatmap.png"; Pairplot "pairplot.png"]);
    try reflexivity.
  intros q Hq. rewrite !elem_of_cons in Hq.
  by destruct Hq as [->|[->|?%elem_of_nil]].
Defined.

(** C9, as stated, fails on both counts.  When the pie chart of the sample
    data frame does not render, [main] ends with its error and the five
    images rendered before it stay on disk: nothing is removed.  And a
    removal that fails is not logged and passed over: on the data frame
    whose two scatter charts share a path, the second removal of that path
    ends [main] with its error, and the images after it stay on disk. *)
Lemma no_cleanup_on_failure :
  main no_pie_chart (λ _, Some sample_df) report_session
  = Raise (RenderError (PieChart "city" "pie_chart_city.png"))
      {| files := {["histogram_age.png"; "histogram_income.png";
                    "scatter_agevsincome.png"; "correlation_heatmap.png";
                    "pairplot.png"]};
         stdin := [];
         trace := menu_events sample_df ++
           [Rendered (Histogram "age" "histogram_age.png");
            Rendered (Histogram "income" "histogram_income.png");
            Rendered (Scatter "age" "income" "scatter_agevsincome.png");
            Rendered (CorrelationHeatmap "correlation_heatmap.png");
            Rendered (Pairplot "pairplot.png")] |}
  ∧ ∃ w',
      main always_renders (λ _, Some collision_df) report_session
        = Raise (FileNotFoundError "scatter_avsbvsc.png") w'
      ∧ files w' = {["data_visualization_report.pdf";
                     "correlation_heatmap.png"; "pairplot.png"]}.
Proof.
  split; [by vm_compute|].
  eexists. split; [by vm_compute|]. by vm_compute.
Qed.

(** C9, amended: when every chart renders and no two charts share a path,
    the report branch of [main] removes every image file, and it does so
    after the document has been saved and its name printed; the document
    stays on disk.  (When a render or a removal fails, its error ends
    [main]: nothing is removed any more and nothing is logged.) *)
Theorem cleanup_after_save renderer read_csv (df : DataFrame) (w : World)
    (file_path : string) (rest : list string) :
  stdin w = file_path :: "3" :: rest →
  read_csv file_path = Some df →
  (∀ p, renderer df p = true) →
  NoDup (save_path_of <$> plot_plan df) →
  ∃ ops w',
    main renderer read_csv w = Return () w'
    ∧ trace w'
      = trace w ++ menu_events df ++ (Rendered <$> plot_plan df)
        ++ [SavedPdf "data_visualization_report.pdf" ops;
            Printed "PDF report generated: data_visualization_report.pdf"]
        ++ (Removed <$> (save_path_of <$> plot_plan df))
    ∧ (∀ p, p ∈ plot_plan df → save_path_of p ∉ files w')
    ∧ "data_visualization_report.pdf" ∈ files w'.
Proof.
  intros Hin Hcsv Hok Hnd.
  eexists _, _. split; [|split; [|split]].
  - rewrite (main_pdf_report _ _ w file_path rest df) by done.
    by apply pdf_report_ok.
  - unfold after_removes, printed, saved, after_renders, asked. cbn [trace].
    by rewrite <- !(assoc_L (++)).
  - intros p Hp. cbn. rewrite elem_of_difference, elem_of_list_to_set.
    intros [_ Hnot]. apply Hnot. by apply list_elem_of_fmap_2.
  - cbn. rewrite elem_of_difference, elem_of_list_to_set.
    split; [by apply elem_of_union_l, elem_of_singleton|].
    apply report_not_artifact.
Qed.

Lemma cleanup_after_save_witness :
  stdin report_session = "data.csv" :: "3" :: []
  ∧ (λ _, Some sample_df) "data.csv" = Some sample_df
  ∧ (∀ p, always_renders sample_df p = true)
  ∧ NoDup (save_path_of <$> plot_plan sample_df)
  ∧ ∃ ops w',
      main always_renders (λ _, Some sample_df) report_session = Return () w'
      ∧ trace w'
        = trace report_session ++ menu_events sample_df
          ++ (Rendered <$> plot_plan sample_df)
          ++ [SavedPdf "data_visualization_report.pdf" ops;
              Printed "PDF report generated: data_visualization_report.pdf"]
          ++ (Removed <$> (save_path_of <$> plot_plan sample_df))
      ∧ (∀ p, p ∈ plot_plan sample_df → save_path_of p ∉ files w')
      ∧ "data_visualization_report.pdf" ∈ files w'.
Proof.
  assert (Hnd : NoDup (save_path_of <$> plot_plan sample_df))
    by (by apply (bool_decide_unpack _)).
  split; [reflexivity|]. split; [reflexivity|]. split; [reflexivity|].
  split; [exact Hnd|].
  exact (cleanup_after_save always_renders (λ _, Some sample_df) sample_df
           report_session "data.csv" [] eq_refl eq_refl (λ _, eq_refl) Hnd).
Defined.

(** ** One chart on request *)

(** The branch of the specific plots, once its menu is shown and the choice
    is read. *)
Lemma specific_choice renderer (df : DataFrame) (specific_choice : string)
    (rest : list string) (w : World) :
  stdin w = specific_choice :: rest →
  specific_plots renderer df w
  = (if bool_decide (specific_choice = "1") then
       column <- input "Enter the column name for the histogram: " ;;
       if has_column column df then
         plot_histogram renderer df column ("histogram_" +:+ column +:+ ".png")
       else print "Column not found."
     else if bool_decide (specific_choice = "2") then
       x_col <- input "Enter the column name for the x-axis: " ;;
       y_col <- input "Enter the column name for the y-axis: " ;;
       if has_column x_col df && has_column y_col df then
         plot_scatter renderer df x_col y_col
           ("scatter_" +:+ x_col +:+ "vs" +:+ y_col +:+ ".png")
       else print "One or both columns not found."
     else if bool_decide (specific_choice = "3") then
       plot_pairplot renderer df "pairplot.png"
     else if bool_decide (specific_choice = "4") then
       plot_correlation_heatmap renderer df "correlation_heatmap.png"
     else if bool_decide (specific_choice = "5") then
       column <- input "Enter the column name for the pie chart: " ;;
       if has_column column df then
         plot_pie_chart renderer df column ("pie_chart_" +:+ column +:+ ".png")
       else print "Column not found."
     else print "Invalid choice.") (asked specific_menu rest w).
Proof.
  intros Hin. unfold specific_plots.
  unfold bind at 1 2 3 4 5 6 7. unfold print, emit, input, bind. cbn.
  rewrite Hin. unfold asked, specific_menu. by rewrite <- !(assoc_L (++)).
Qed.

(** C8, as stated, fails: asked for a histogram of "height", which is no
    column of the data, [main] raises nothing: it prints a fixed line, in
    which the column is not named, and returns. *)
Lemma missing_column_is_printed :
  has_column "height" sample_df = false
  ∧ main always_renders (λ _, Some sample_df) histogram_session
    = Return ()
        {| files := ∅;
           stdin := [];
           trace := menu_events sample_df ++ specific_menu ++
             [Prompted "Enter the column name for the histogram: ";
              Printed "Column not found."] |}
  ∧ contains "height" "Column not found." = false.
Proof. split; [|split]; by vm_compute. Qed.

(** C8, amended: for a request that names columns, [main] checks that every
    named column is a column of the data frame.  If one is not, it prints
    "Column not found." (or, for a scatter plot, "One or both columns not
    found."), renders nothing, writes no file and returns without an error.
    Otherwise it asks the renderer for the one chart of the request, which
    is saved under its name, or whose error ends [main]. *)
Theorem single_request renderer read_csv (df : DataFrame) (w : World)
    (file_path : string) (r : Request) (rest : list string) :
  stdin w = file_path :: "2" :: request_lines r ++ rest →
  read_csv file_path = Some df →
  main renderer read_csv w
  = let shown := trace w ++ menu_events df ++ specific_menu ++ request_prompts r in
    if request_valid r df then
      if renderer df (request_plot r) then
        Return ()
          {| files := {[save_path_of (request_plot r)]} ∪ files w;
             stdin := rest;
             trace := shown ++ [Rendered (request_plot r)] |}
      else
        Raise (RenderError (request_plot r))
          {| files := files w; stdin := rest; trace := shown |}
    else
      Return ()
        {| files := files w;
           stdin := rest;
           trace := shown ++
             [Printed (match r with
                       | ScatterOf _ _ => "One or both columns not found."
                       | _ => "Column not found."
                       end)] |}.
Proof.
  intros Hin Hcsv.
  rewrite (main_specific_plots _ _ w file_path (request_lines r ++ rest) df)
    by done.
  unfold request_valid.
  destruct r as [column|x_col y_col|column];
    cbn [request_lines request_columns request_prompts request_plot forallb app];
    rewrite ?andb_true_r.
  - rewrite (specific_choice _ _ "1" (column :: rest)) by done.
    rewrite (bool_decide_true ("1" = "1")) by done.
    unfold bind, input, bind, emit, plot_histogram, render, print.
    cbn [stdin asked files trace].
    destruct (has_column column df); [destruct (renderer df _)|];
      unfold bind, write_file, emit, raise; cbn [stdin files trace save_path_of];
      by rewrite <- ?(assoc_L (++)).
  - rewrite (specific_choice _ _ "2" (x_col :: y_col :: rest)) by done.
    rewrite (bool_decide_false ("2" = "1")), (bool_decide_true ("2" = "2"))
      by done.
    unfold bind, input, bind, emit, plot_scatter, render, print.
    cbn [stdin asked files trace].
    destruct (has_column x_col df && has_column y_col df);
      [destruct (renderer df _)|];
      unfold bind, write_file, emit, raise; cbn [stdin files trace save_path_of];
      by rewrite <- ?(assoc_L (++)).
  - rewrite (specific_choice _ _ "5" (column :: rest)) by done.
    rewrite (bool_decide_false ("5" = "1")), (bool_decide_false ("5" = "2")),
      (bool_decide_false ("5" = "3")), (bool_decide_false ("5" = "4")),
      (bool_decide_true ("5" = "5")) by done.
    unfold bind, input, bind, emit, plot_pie_chart, render, print.
    cbn [stdin asked files trace].
    destruct (has_column column df); [destruct (renderer df _)|];
      unfold bind, write_file, emit, raise; cbn [stdin files trace save_path_of];
      by rewrite <- ?(assoc_L (++)).
Qed.

Lemma single_request_witness :
  stdin histogram_session
    = "data.csv" :: "2" :: request_lines (HistogramOf "height") ++ []
  ∧ (λ _, Some sample_df) "data.csv" = Some sample_df
  ∧ main always_renders (λ _, Some sample_df) histogram_session
    = let r := HistogramOf "height" in
      let shown := trace histogram_session ++ menu_events sample_df
                   ++ specific_menu ++ request_prompts r in
      if request_valid r sample_df then
        if always_renders sample_df (request_plot r) then
          Return ()
            {| files := {[save_path_of (request_plot r)]} ∪ files histogram_session;
               stdin := [];
               trace := shown ++ [Rendered (request_plot r)] |}
        else
          Raise (RenderError (request_plot r))
            {| files := files histogram_session; stdin := []; trace := shown |}
      else
        Return ()
          {| files := files histogram_session;
             stdin := [];
             trace := shown ++ [Printed "Column not found."] |}.
Proof.
  split; [reflexivity|]. split; [reflexivity|].
  exact (single_request always_renders (λ _, Some sample_df) sample_df
           histogram_session "data.csv" (HistogramOf "height") []
           eq_refl eq_refl).
Defined.

(** * Further properties of the script *)

(** ** What the loops do on any input *)

Section Outcomes.

Variable renderer : DataFrame → Plot → bool.
Variable df : DataFrame.

(** The loop over the charts stops at the first chart that does not
    render. *)
Lemma run_plots_find ps plot_paths w :
  run_plots renderer df ps plot_paths w
  = match list_find (λ p, renderer df p = false) ps with
    | Some (i, p) => Raise (RenderError p) (after_renders (take i ps) w)
    | None =>
        Return (plot_paths ++ (save_path_of <$> ps)) (after_renders ps w)
    end.
Proof.
  destruct (list_find _ ps) as [[i p]|] eqn:Hfind.
  - apply list_find_Some in Hfind as (Hi & Hp & Hbefore).
    rewrite <- (take_drop_middle ps i p Hi) at 1.
    apply run_plots_fail; [|done].
    intros q (j & Hj & Hlt)%elem_of_take.
    specialize (Hbefore j q Hj Hlt). by destruct (renderer df q).
  - apply list_find_None in Hfind. apply run_plots_ok.
    intros q Hq. rewrite Forall_forall in Hfind.
    specialize (Hfind q Hq). by destruct (renderer df q).
Qed.

End Outcomes.

Lemma elem_of_select_dtypes t df column :
  column ∈ select_dtypes t df ↔ (column, t) ∈ dtypes df.
Proof.
  unfold select_dtypes. rewrite list_elem_of_fmap. split.
  - intros ([c t'] & -> & [Ht Hin]%list_elem_of_filter). cbn in *. by subst.
  - intros Hin. exists (column, t). split; [done|].
    by apply list_elem_of_filter.
Qed.

(** The dtype of the columns a chart is made for. *)
Lemma plot_plan_dtypes df p column :
  p ∈ plot_plan df → column ∈ plot_columns p →
  (column, match p with PieChart _ _ => Object | _ => Number end) ∈ dtypes df.
Proof.
  unfold plot_plan. rewrite !elem_of_app. intros [Hp|[Hp|[Hp|Hp]]] Hc.
  - apply list_elem_of_fmap in Hp as (c & -> & Hin).
    apply list_elem_of_singleton in Hc as ->. by apply elem_of_select_dtypes.
  - apply list_elem_of_fmap in Hp as ([i j] & -> & Hij%elem_of_index_pairs).
    cbn in Hc. apply elem_of_select_dtypes.
    rewrite !elem_of_cons in Hc.
    destruct Hc as [->|[->|?%elem_of_nil]]; [| |done];
      apply item_elem_of; cbn in *; lia.
  - unfold overview_plots in Hp. case_bool_decide; [|by apply elem_of_nil in Hp].
    rewrite !elem_of_cons in Hp.
    destruct Hp as [->|[->|?%elem_of_nil]]; [| |done]; by apply elem_of_nil in Hc.
  - apply list_elem_of_fmap in Hp as (c & -> & Hin).
    apply list_elem_of_singleton in Hc as ->. by apply elem_of_select_dtypes.
Qed.

(** X1: whatever the renderer does, [auto_generate_plots] renders the charts
    of its plan in order up to the first one that does not render and stops
    there with that chart's error, or returns the paths of all of them.  It
    reads no input and removes no file: the files of the rendered charts
    are added to those on disk, and nothing else changes. *)
Theorem auto_generate_plots_effects renderer (df : DataFrame) (w : World) :
  ∃ pre,
    pre `prefix_of` plot_plan df
    ∧ stdin (result_world (auto_generate_plots renderer df w)) = stdin w
    ∧ trace (result_world (auto_generate_plots renderer df w))
      = trace w ++ (Rendered <$> pre)
    ∧ files (result_world (auto_generate_plots renderer df w))
      = list_to_set (save_path_of <$> pre) ∪ files w
    ∧ match auto_generate_plots renderer df w with
      | Return plot_paths _ =>
          pre = plot_plan df ∧ plot_paths = save_path_of <$> pre
      | Raise e _ =>
          ∃ p, e = RenderError p ∧ renderer df p = false
               ∧ (pre ++ [p]) `prefix_of` plot_plan df
      end.
Proof.
  rewrite auto_generate_plots_run, run_plots_find.
  destruct (list_find _ (plot_plan df)) as [[i p]|] eqn:Hfind.
  - apply list_find_Some in Hfind as (Hi & Hp & _).
    exists (take i (plot_plan df)). split_and!; try done.
    + apply prefix_take.
    + exists p. split_and!; try done.
      exists (drop (S i) (plot_plan df)).
      rewrite <- (assoc_L (++)).
      change ([p] ++ drop (S i) (plot_plan df))
        with (p :: drop (S i) (plot_plan df)).
      by rewrite take_drop_middle.
  - by exists (plot_plan df).
Qed.

(** X2: the histograms and scatter charts that [auto_generate_plots]
    renders are of numerical columns and the pie charts it renders are of
    categorical columns, whatever the renderer does: a column of another
    dtype is in no chart for which [auto_generate_plots] names a column. *)
Theorem charts_respect_dtypes renderer (df : DataFrame) (w : World) :
  ∃ charts,
    trace (result_world (auto_generate_plots renderer df w))
      = trace w ++ (Rendered <$> charts)
    ∧ ∀ p column,
        p ∈ charts → column ∈ plot_columns p →
        (column, match p with PieChart _ _ => Object | _ => Number end)
          ∈ dtypes df.
Proof.
  rewrite auto_generate_plots_run, run_plots_find.
  destruct (list_find _ (plot_plan df)) as [[i p]|] eqn:Hfind.
  - exists (take i (plot_plan df)). split; [done|].
    intros q c (j & Hj & _)%elem_of_take. apply plot_plan_dtypes.
    by eapply list_elem_of_lookup_2.
  - exists (plot_plan df). split; [done|]. apply plot_plan_dtypes.
Qed.

Lemma charts_respect_dtypes_witness :
  ∃ charts,
    trace (result_world (auto_generate_plots no_scatter sample_df empty_world))
      = trace empty_world ++ (Rendered <$> charts)
    ∧ ∀ p column,
        p ∈ charts → column ∈ plot_columns p →
        (column, match p with PieChart _ _ => Object | _ => Number end)
          ∈ dtypes sample_df.
Proof. exact (charts_respect_dtypes no_scatter sample_df empty_world). Defined.

(** ** The canvas of the report *)

(** X3: [generate_pdf_report] opens the image files in order.  At the first
    one that is not on disk it stops with the error of that file: nothing
    is saved and the world is as it was.  When all are on disk it saves the
    report, which adds the output file and nothing else. *)
Theorem report_needs_every_image (plot_paths : list string)
    (output_filename : string) (w : World) :
  generate_pdf_report plot_paths output_filename w
  = match list_find (λ plot_path, plot_path ∉ files w) plot_paths with
    | Some (_, plot_path) => Raise (ArtifactReadError plot_path) w
    | None =>
        Return ()
          {| files := {[output_filename]} ∪ files w;
             stdin := stdin w;
             trace := trace w
               ++ [SavedPdf output_filename (report_ops plot_paths)] |}
    end.
Proof.
  destruct (list_find _ plot_paths) as [[i p]|] eqn:Hfind.
  - apply list_find_Some in Hfind as (Hi & Hp & Hbefore).
    rewrite <- (take_drop_middle plot_paths i p Hi).
    apply generate_pdf_report_unreadable; [|done].
    intros q (j & Hj & Hlt)%elem_of_take.
    by apply dec_stable, (Hbefore j q).
  - apply list_find_None in Hfind. rewrite Forall_forall in Hfind.
    rewrite generate_pdf_report_ok, report_ops_eq; [done|].
    intros q Hq. by apply dec_stable, Hfind.
Qed.

Lemma filter_image_placements plot_paths n :
  filter is_image (mjoin (imap (λ i, placement (n + i)) plot_paths))
  = imap (λ i plot_path,
      DrawImage plot_path 100 (if Nat.even (n + i) then 642 else 292) 400 300)
      plot_paths.
Proof.
  revert n. induction plot_paths as [|p ps IH]; intros n; [done|].
  assert (Hone : filter is_image (placement (n + 0) p)
                 = [DrawImage p 100 (if Nat.even (n + 0) then 642 else 292)
                      400 300]).
  { unfold placement. rewrite cursor_y_parity. by destruct (Nat.even (n + 0)). }
  rewrite !imap_cons. cbn [mjoin list_join]. rewrite filter_app, Hone.
  cbn [app]. f_equal.
  assert (Hl : imap ((λ i, placement (n + i)) ∘ S) ps
               = imap (λ i, placement (S n + i)) ps).
  { apply imap_ext. intros i x _. cbn. by rewrite Nat.add_succ_r. }
  rewrite Hl, IH.
  apply imap_ext. intros i x _. cbn. by rewrite Nat.add_succ_r.
Qed.

(** X4: the images of the report are the plots in the order of the list,
    each once, 400 wide and 300 high at x = 100; the plots of even index
    (the first on their page) are at y = 642, those of odd index at
    y = 292. *)
Theorem images_in_order (plot_paths : list string) :
  filter is_image (report_ops plot_paths)
  = imap (λ i plot_path,
      DrawImage plot_path 100 (if Nat.even i then 642 else 292) 400 300)
      plot_paths.
Proof.
  rewrite report_ops_eq, filter_app.
  change (filter is_image header) with (@nil CanvasOp).
  apply (filter_image_placements plot_paths 0).
Qed.

(** X5: page [i] of the report is the header followed by the images of the
    plots [2i] and [2i + 1], as far as there are such plots; there are
    [N / 2 + 1] pages for [N] plots. *)
Theorem page_contents (plot_paths : list string) :
  pages (report_ops plot_paths)
  = (λ i,
       [SetFont "Helvetica-Bold" 18;
        DrawString 100 692 "Data Visualization Report"]
       ++ imap (λ j plot_path,
            DrawImage plot_path 100 (if Nat.even j then 642 else 292) 400 300)
            (take 2 (drop (2 * i) plot_paths)))
    <$> seq 0 (length plot_paths / 2 + 1).
Proof.
  rewrite pages_report.
  induction plot_paths as [|p|p q rest IH] using list_ind2; [done..|].
  cbn [page_list length].
  change (S (S (length rest))) with (1 * 2 + length rest).
  rewrite Nat.div_add_l by done.
  change (1 + length rest / 2 + 1) with (S (length rest / 2 + 1)).
  cbn [seq]. rewrite fmap_cons. f_equal.
  rewrite IH, <- fmap_S_seq, <- list_fmap_compose.
  apply list_fmap_ext. intros _ i _. cbn [compose].
  by replace (2 * S i) with (S (S (2 * i))) by lia.
Qed.

(** X6: the first image of the report is drawn over the title and beyond
    the upper edge of the page: on the first page the title is written at
    (100, 692) and the image, whose lower left corner is at (100, 642),
    reaches up to 642 + 300 = 942, above the page height 792. *)
Theorem first_image_covers_title (plot_path : string) (rest : list string) :
  ∃ page,
    pages (report_ops (plot_path :: rest)) !! 0 = Some page
    ∧ DrawString 100 692 "Data Visualization Report" ∈ page
    ∧ DrawImage plot_path 100 642 400 300 ∈ page
    ∧ (642 ≤ 692 ≤ 642 + 300)%Z
    ∧ (letter.2 < 642 + 300)%Z.
Proof.
  rewrite pages_report.
  destruct rest as [|q rest]; cbn [page_list]; eexists;
    (split; [reflexivity|]); split_and!; try done.
  - by right; left.
  - by do 2 right; left.
  - by right; left.
  - by do 2 right; left.
Qed.

(** ** The branches of the menu *)

(** X7: with the choice 1, [main] renders the charts of the plan and
    returns: the images stay on disk, no report is saved and nothing is
    removed. *)
Theorem auto_mode_keeps_images renderer read_csv (df : DataFrame) (w : World)
    (file_path : string) (rest : list string) :
  stdin w = file_path :: "1" :: rest →
  read_csv file_path = Some df →
  (∀ p, renderer df p = true) →
  main renderer read_csv w
  = Return ()
      {| files := list_to_set (save_path_of <$> plot_plan df) ∪ files w;
         stdin := rest;
         trace := trace w ++ menu_events df ++ (Rendered <$> plot_plan df) |}.
Proof.
  intros Hin Hcsv Hok.
  rewrite (main_choice _ _ w file_path "1" rest df) by done.
  rewrite (bool_decide_true ("1" = "1")) by done.
  unfold bind. rewrite auto_generate_plots_ok by done.
  unfold ret, after_renders, asked. cbn [files stdin trace].
  by rewrite <- (assoc_L (++)).
Qed.

(** The user asks for all the plots of data.csv. *)
Lemma auto_mode_keeps_images_witness :
  main always_renders (λ _, Some sample_df)
    {| files := ∅; stdin := ["data.csv"; "1"]; trace := [] |}
  = Return ()
      {| files := list_to_set (save_path_of <$> plot_plan sample_df) ∪ ∅;
         stdin := [];
         trace := [] ++ menu_events sample_df
                  ++ (Rendered <$> plot_plan sample_df) |}.
Proof.
  exact (auto_mode_keeps_images always_renders (λ _, Some sample_df) sample_df
           {| files := ∅; stdin := ["data.csv"; "1"]; trace := [] |}
           "data.csv" [] eq_refl eq_refl (λ _, eq_refl)).
Defined.

(** X8: a choice other than 1, 2 and 3 makes [main] print "Invalid choice."
    and return; nothing is rendered or written.  This is so for the choice
    4, which the menu offers as "4. Generate inferences". *)
Theorem invalid_choice renderer read_csv (df : DataFrame) (w : World)
    (file_path choice : string) (rest : list string) :
  stdin w = file_path :: choice :: rest →
  read_csv file_path = Some df →
  choice ∉ ["1"; "2"; "3"] →
  Printed "4. Generate inferences" ∈ menu_events df
  ∧ main renderer read_csv w
    = Return ()
        {| files := files w;
           stdin := rest;
           trace := trace w ++ menu_events df ++ [Printed "Invalid choice."] |}.
Proof.
  intros Hin Hcsv Hchoice. split; [by do 7 right; left|].
  rewrite (main_choice _ _ w file_path choice rest df) by done.
  rewrite !elem_of_cons, elem_of_nil in Hchoice.
  rewrite !bool_decide_false by tauto.
  unfold print, emit, asked. cbn [files stdin trace].
  by rewrite <- (assoc_L (++)).
Qed.

Lemma invalid_choice_witness :
  Printed "4. Generate inferences" ∈ menu_events sample_df
  ∧ main always_renders (λ _, Some sample_df)
      {| files := ∅; stdin := ["data.csv"; "4"]; trace := [] |}
    = Return ()
        {| files := ∅;
           stdin := [];
           trace := [] ++ menu_events sample_df
                    ++ [Printed "Invalid choice."] |}.
Proof.
  apply (invalid_choice always_renders (λ _, Some sample_df) sample_df
           {| files := ∅; stdin := ["data.csv"; "4"]; trace := [] |}
           "data.csv" "4" []); [reflexivity | reflexivity |].
  rewrite !elem_of_cons, elem_of_nil. by intros [?|[?|[?|?]]].
Defined.

(** X9: when the dataset cannot be read, [main] ends with the error of
    [load_data] right after the path was typed: no menu is shown, nothing is
    rendered or written. *)
Theorem unreadable_dataset renderer read_csv (w : World) (file_path : string)
    (rest : list string) :
  stdin w = file_path :: rest →
  read_csv file_path = None →
  main renderer read_csv w
  = Raise (DataSourceError file_path)
      {| files := files w;
         stdin := rest;
         trace := trace w
           ++ [Prompted "Enter the path to the dataset (CSV file): "] |}.
Proof.
  intros Hin Hcsv. unfold main, bind at 1.
  unfold input, bind, emit. cbn [stdin files trace]. rewrite Hin.
  unfold load_data. by rewrite Hcsv.
Qed.

Lemma unreadable_dataset_witness :
  main always_renders (λ _, None)
    {| files := ∅; stdin := ["missing.csv"; "3"]; trace := [] |}
  = Raise (DataSourceError "missing.csv")
      {| files := ∅;
         stdin := ["3"];
         trace := [] ++ [Prompted "Enter the path to the dataset (CSV file): "] |}.
Proof.
  exact (unreadable_dataset always_renders (λ _, None)
           {| files := ∅; stdin := ["missing.csv"; "3"]; trace := [] |}
           "missing.csv" ["3"] eq_refl eq_refl).
Defined.

(** X10: among the specific plots, the choices 3 and 4 ask for no column
    and check none: the pairplot, or the correlation heatmap, of the whole
    data frame is rendered under its fixed name, or the renderer's error
    ends [main].  A choice other than 1 to 5 prints "Invalid choice.". *)
Theorem whole_frame_requests renderer read_csv (df : DataFrame) (w : World)
    (file_path specific : string) (rest : list string) :
  stdin w = file_path :: "2" :: specific :: rest →
  read_csv file_path = Some df →
  specific ∉ ["1"; "2"; "5"] →
  main renderer read_csv w
  = let shown := trace w ++ menu_events df ++ specific_menu in
    let render_one (p : Plot) :=
      if renderer df p then
        Return ()
          {| files := {[save_path_of p]} ∪ files w;
             stdin := rest;
             trace := shown ++ [Rendered p] |}
      else
        Raise (RenderError p) {| files := files w; stdin := rest; trace := shown |} in
    if bool_decide (specific = "3") then
      render_one (Pairplot "pairplot.png")
    else if bool_decide (specific = "4") then
      render_one (CorrelationHeatmap "correlation_heatmap.png")
    else
      Return ()
        {| files := files w;
           stdin := rest;
           trace := shown ++ [Printed "Invalid choice."] |}.
Proof.
  intros Hin Hcsv Hchoice.
  rewrite (main_specific_plots _ _ w file_path (specific :: rest) df)
    by done.
  rewrite (specific_choice _ _ specific rest) by done.
  rewrite !elem_of_cons, elem_of_nil in Hchoice.
  rewrite (bool_decide_false (specific = "1")),
    (bool_decide_false (specific = "2")),
    (bool_decide_false (specific = "5")) by tauto.
  cbn zeta.
  unfold plot_pairplot, plot_correlation_heatmap, render, print.
  repeat case_bool_decide;
    repeat match goal with |- context [renderer df ?p] => destruct (renderer df p) end;
    unfold bind, write_file, emit, raise, asked; cbn [files stdin trace save_path_of];
    by rewrite <- ?(assoc_L (++)).
Qed.

Lemma whole_frame_requests_witness :
  main no_scatter (λ _, Some sample_df)
    {| files := ∅; stdin := ["data.csv"; "2"; "3"]; trace := [] |}
  = Return ()
      {| files := {["pairplot.png"]} ∪ ∅;
         stdin := [];
         trace := ([] ++ menu_events sample_df ++ specific_menu)
                  ++ [Rendered (Pairplot "pairplot.png")] |}.
Proof.
  apply (whole_frame_requests no_scatter (λ _, Some sample_df) sample_df
           {| files := ∅; stdin := ["data.csv"; "2"; "3"]; trace := [] |}
           "data.csv" "3" []); [reflexivity | reflexivity |].
  rewrite !elem_of_cons, elem_of_nil. by intros [?|[?|[?|?]]].
Defined.

(** ** The report and the files on disk *)

Lemma length_plot_plan df :
  length (plot_plan df)
  = length (select_dtypes Number df)
    + choose (length (select_dtypes Number df)) 2
    + (if bool_decide (1 ≤ length (select_dtypes Number df)) then 2 else 0)
    + length (select_dtypes Object df).
Proof.
  unfold plot_plan. rewrite !length_app, !length_fmap.
  rewrite length_index_pairs, length_overview_plots. lia.
Qed.

Lemma images_of_placements plot_paths n :
  omap image_of (mjoin (imap (λ i, placement (n + i)) plot_paths)) = plot_paths.
Proof.
  revert n. induction plot_paths as [|p ps IH]; intros n; [done|].
  assert (Hone : omap image_of (placement (n + 0) p) = [p]).
  { unfold placement. by case_bool_decide. }
  assert (Hl : imap ((λ i, placement (n + i)) ∘ S) ps
               = imap (λ i, placement (S n + i)) ps).
  { apply imap_ext. intros i x _. cbn. by rewrite Nat.add_succ_r. }
  rewrite imap_cons. cbn [mjoin list_join]. rewrite omap_app, Hone, Hl, IH.
  done.
Qed.

Lemma images_of_report plot_paths :
  omap image_of (report_ops plot_paths) = plot_paths.
Proof.
  rewrite report_ops_eq, omap_app.
  change (omap image_of header) with (@nil string).
  apply (images_of_placements plot_paths 0).
Qed.

(** A path that occurs a second time is not there to be removed: the loop
    of removals ends at it with its error. *)
Lemma remove_loop_repeated pre p post w :
  NoDup pre →
  (∀ q, q ∈ pre → q ∈ files w) →
  p ∈ pre →
  for_each (pre ++ p :: post) (λ plot_path _, os_remove plot_path) () w
  = Raise (FileNotFoundError p) (after_removes pre w).
Proof.
  intros Hnd Hin Hp. rewrite for_each_app. unfold bind.
  rewrite remove_loop by done.
  cbn [for_each]. unfold bind, os_remove, bind, file_exists.
  rewrite bool_decide_false; [done|].
  cbn. rewrite elem_of_difference, elem_of_list_to_set. tauto.
Qed.

(** X11: when every chart renders and no two charts share a path, the
    report branch of [main] leaves on disk the files that were there, less
    those under the name of an artifact, and the report: a file the user
    had under such a name (pairplot.png, say) is overwritten and
    removed. *)
Theorem report_leaves_other_files renderer read_csv (df : DataFrame)
    (w : World) (file_path : string) (rest : list string) :
  stdin w = file_path :: "3" :: rest →
  read_csv file_path = Some df →
  (∀ p, renderer df p = true) →
  NoDup (save_path_of <$> plot_plan df) →
  files (result_world (main renderer read_csv w))
  = ({["data_visualization_report.pdf"]} ∪ files w)
    ∖ list_to_set (save_path_of <$> plot_plan df).
Proof.
  intros Hin Hcsv Hok Hnd.
  rewrite (main_pdf_report _ _ w file_path rest df) by done.
  rewrite pdf_report_ok by done. cbn.
  apply set_eq. intros x.
  rewrite !elem_of_difference, !elem_of_union, elem_of_list_to_set. tauto.
Qed.

Lemma report_leaves_other_files_witness :
  files (result_world
           (main always_renders (λ _, Some sample_df) cluttered_session))
  = ({["data_visualization_report.pdf"]} ∪ files cluttered_session)
    ∖ list_to_set (save_path_of <$> plot_plan sample_df).
Proof.
  apply (report_leaves_other_files always_renders (λ _, Some sample_df)
           sample_df cluttered_session "data.csv" []); [reflexivity..|].
  by apply (bool_decide_unpack _).
Defined.

(** X12: when every chart renders and no two charts share a path, the
    report [main] saves holds the images of the plan's charts in plan
    order, and has [n / 2 + 1] pages for the [n = k + C(k,2) + (2 if k >= 1)
    + m] charts of [k] numerical and [m] categorical columns: one page, with
    the title alone, when there is no such column. *)
Theorem report_document renderer read_csv (df : DataFrame) (w : World)
    (file_path : string) (rest : list string) (k m : nat) :
  stdin w = file_path :: "3" :: rest →
  read_csv file_path = Some df →
  (∀ p, renderer df p = true) →
  NoDup (save_path_of <$> plot_plan df) →
  length (select_dtypes Number df) = k →
  length (select_dtypes Object df) = m →
  ∃ ops,
    SavedPdf "data_visualization_report.pdf" ops
      ∈ trace (result_world (main renderer read_csv w))
    ∧ omap image_of ops = save_path_of <$> plot_plan df
    ∧ length (pages ops)
      = (k + choose k 2 + (if bool_decide (1 ≤ k) then 2 else 0) + m) / 2 + 1.
Proof.
  intros Hin Hcsv Hok Hnd Hk Hm.
  rewrite (main_pdf_report _ _ w file_path rest df) by done.
  rewrite pdf_report_ok by done.
  exists (report_ops (save_path_of <$> plot_plan df)). split_and!.
  - cbn. rewrite !elem_of_app, !list_elem_of_singleton. tauto.
  - apply images_of_report.
  - rewrite pages_report, length_page_list, length_fmap, length_plot_plan.
    by rewrite Hk, Hm.
Qed.

Lemma report_document_witness :
  ∃ ops,
    SavedPdf "data_visualization_report.pdf" ops
      ∈ trace (result_world
                 (main always_renders (λ _, Some sample_df) report_session))
    ∧ omap image_of ops = save_path_of <$> plot_plan sample_df
    ∧ length (pages ops)
      = (2 + choose 2 2 + (if bool_decide (1 ≤ 2) then 2 else 0) + 1) / 2 + 1.
Proof.
  apply (report_document always_renders (λ _, Some sample_df) sample_df
           report_session "data.csv" [] 2 1);
    [reflexivity|reflexivity|reflexivity| |reflexivity|reflexivity].
  by apply (bool_decide_unpack _).
Defined.

(** X13: when every chart renders and a path of the plan occurs a second
    time, the report branch of [main] saves the report, removes the images
    up to that second occurrence and ends there with the error of
    [os.remove]: the images after it stay on disk. *)
Theorem repeated_path_stops_cleanup renderer read_csv (df : DataFrame)
    (w : World) (file_path : string) (rest pre : list string)
    (plot_path : string) (post : list string) :
  stdin w = file_path :: "3" :: rest →
  read_csv file_path = Some df →
  (∀ p, renderer df p = true) →
  save_path_of <$> plot_plan df = pre ++ plot_path :: post →
  NoDup pre →
  plot_path ∈ pre →
  ∃ ops w',
    main renderer read_csv w = Raise (FileNotFoundError plot_path) w'
    ∧ trace w'
      = trace w ++ menu_events df ++ (Rendered <$> plot_plan df)
        ++ [SavedPdf "data_visualization_report.pdf" ops;
            Printed "PDF report generated: data_visualization_report.pdf"]
        ++ (Removed <$> pre)
    ∧ files w'
      = ({["data_visualization_report.pdf"]} ∪ list_to_set post ∪ files w)
        ∖ list_to_set pre.
Proof.
  intros Hin Hcsv Hok Hplan Hnd Hp.
  rewrite (main_pdf_report _ _ w file_path rest df) by done.
  unfold pdf_report, bind. rewrite auto_generate_plots_ok by done.
  rewrite generate_pdf_report_ok.
  2:{ intros q Hq. cbn. apply elem_of_union_l. by apply elem_of_list_to_set. }
  unfold print, emit. cbn [bind]. rewrite Hplan.
  rewrite remove_loop_repeated; [|done| |done].
  2:{ intros q Hq. cbn. apply elem_of_union_r, elem_of_union_l.
      rewrite elem_of_list_to_set, Hplan, elem_of_app. by left. }
  eexists _, _. split; [done|]. split.
  - unfold after_removes, saved, after_renders, asked. cbn [trace].
    by rewrite <- !(assoc_L (++)).
  - cbn. rewrite Hplan. apply set_eq. intros x.
    rewrite !elem_of_difference, !elem_of_union, !elem_of_list_to_set,
      elem_of_app, elem_of_cons.
    split; [|tauto]. intros [[?|[[?|[->|?]]|?]] ?]; tauto.
Qed.

Lemma repeated_path_stops_cleanup_witness :
  ∃ ops w',
    main always_renders (λ _, Some collision_df) report_session
      = Raise (FileNotFoundError "scatter_avsbvsc.png") w'
    ∧ trace w'
      = trace report_session ++ menu_events collision_df
        ++ (Rendered <$> plot_plan collision_df)
        ++ [SavedPdf "data_visualization_report.pdf" ops;
            Printed "PDF report generated: data_visualization_report.pdf"]
        ++ (Removed <$> take 9 (save_path_of <$> plot_plan collision_df))
    ∧ files w'
      = ({["data_visualization_report.pdf"]}
         ∪ list_to_set ["correlation_heatmap.png"; "pairplot.png"]
         ∪ files report_session)
        ∖ list_to_set (take 9 (save_path_of <$> plot_plan collision_df)).
Proof.
  apply (repeated_path_stops_cleanup always_renders (λ _, Some collision_df)
           collision_df report_session "data.csv" []
           (take 9 (save_path_of <$> plot_plan collision_df))
           "scatter_avsbvsc.png"
           ["correlation_heatmap.png"; "pairplot.png"]);
    [reflexivity..| |].
  - by apply (bool_decide_unpack _).
  - by apply (bool_decide_unpack _).
Defined.
